(** * Context7 documentation bridge: a shallow embedding and its properties

    The development follows the Python package [context7]:

    - [core.py]     : [encrypt_client_ip], [generate_headers],
                      [search_libraries], [fetch_library_docs],
                      [format_search_results];
    - [schemas.py]  : the pydantic request and response models;
    - [exceptions.py] : [AppException] and its two subclasses;
    - [api.py]      : the four routes that reach the catalog
                      ([get_default_prompt] returns a fixed text and is
                      left out);
    - [settings.py] : [Settings.__str__];
    - [logger.py]   : the location column of [formatter].

    Python values are modelled as follows.  A [str] is a Rocq [string] whose
    characters are read as the code points U+0000..U+00FF; an [int] is a [Z];
    [bytes] is a [list Byte.byte]; a [dict] used as a header map is a
    [gmap string string]; a decoded JSON document is a [json] tree; a function
    that may raise returns a [result]; a coroutine is a state transformer on
    the [World] (the log of upstream calls and the number of random draws). *)

From Stdlib Require Import ZArith NArith String Ascii List DecimalString Floats.
From Stdlib.Strings Require Import Byte.
From stdpp Require Import base gmap strings list.

Local Open Scope string_scope.
Local Open Scope Z_scope.

Set Warnings "-register-all".

(** ** Exceptions and results *)

(** The exceptions the modelled code can raise.  The first six come from the
    Python runtime and the libraries (their message text is not modelled);
    [HTTPException] is FastAPI's; the last two are the subclasses of
    [AppException] declared in [exceptions.py]. *)
Inductive exn : Type :=
| ValueError
| TypeError
| AttributeError
| IndexError
| InvalidStateError
| JSONDecodeError
| HTTPException (status_code : Z) (detail : string)
| DocumentationNotFoundException (status_code : Z) (message : string)
| LibraryNotFoundException (status_code : Z) (message : string).

Inductive result (A : Type) : Type :=
| Ok (a : A)
| Raise (e : exn).
Arguments Ok {A} a.
Arguments Raise {A} e.

Definition is_ok {A} (r : result A) : bool :=
  match r with Ok _ => true | Raise _ => false end.

Definition rbind {A B} (r : result A) (k : A -> result B) : result B :=
  match r with Ok a => k a | Raise e => Raise e end.

Declare Scope result_scope.
Delimit Scope result_scope with res.
Notation "x <- c1 ;; c2" := (rbind c1 (fun x => c2))
  (at level 100, c1 at next level, right associativity) : result_scope.

(** [exceptions.py]: the constructors' default arguments. *)
Definition DocumentationNotFoundException_default : exn :=
  DocumentationNotFoundException 404 "Documentation not found.".

Definition LibraryNotFoundException_default : exn :=
  LibraryNotFoundException 404 "No matching libraries found.".

(** ** The Python runtime pieces the code relies on *)

Module Py.

(** [str(n)] for an [int]. *)
Definition str_of_int (n : Z) : string :=
  NilZero.string_of_int (Z.to_int n).

(** [s.startswith("/")] *)
Definition startswith_slash (s : string) : bool :=
  match s with
  | String c _ => if decide (c = "/"%char) then true else false
  | EmptyString => false
  end.

(** [s[1:]] *)
Definition drop_first (s : string) : string :=
  match s with
  | String _ rest => rest
  | EmptyString => EmptyString
  end.

(** Truthiness of a [str]: the empty string is falsy. *)
Definition str_truthy (s : string) : bool :=
  match s with EmptyString => false | String _ _ => true end.

(** [sep.join(l)] for a list of [str]. *)
Fixpoint join (sep : string) (l : list string) : string :=
  match l with
  | [] => ""
  | [x] => x
  | x :: rest => x +:+ sep +:+ join sep rest
  end.

(** One lower-case hexadecimal digit. *)
Definition hex_digit (n : N) : ascii :=
  if (n <? 10)%N then ascii_of_N (48 + n) else ascii_of_N (87 + n).

(** [b.hex()] for [bytes]. *)
Fixpoint hex (b : list Byte.byte) : string :=
  match b with
  | [] => ""
  | x :: rest =>
      let n := Byte.to_N x in
      String (hex_digit (n / 16)) (String (hex_digit (n mod 16)) (hex rest))
  end.

(** Value of a hexadecimal digit, either case. *)
Definition hex_value (c : ascii) : option N :=
  let n := N_of_ascii c in
  if ((48 <=? n) && (n <=? 57))%N then Some (n - 48)%N
  else if ((97 <=? n) && (n <=? 102))%N then Some (n - 87)%N
  else if ((65 <=? n) && (n <=? 70))%N then Some (n - 55)%N
  else None.

(** ASCII white space, which [bytes.fromhex] skips between bytes. *)
Definition is_space (c : ascii) : bool :=
  let n := N_of_ascii c in
  ((n =? 32) || ((9 <=? n) && (n <=? 13)))%N.

Fixpoint fromhex_opt (s : string) : option (list Byte.byte) :=
  match s with
  | EmptyString => Some []
  | String c rest =>
      if is_space c then fromhex_opt rest
      else
        match hex_value c, rest with
        | Some hi, String d rest' =>
            match hex_value d with
            | Some lo =>
                match Byte.of_N (hi * 16 + lo), fromhex_opt rest' with
                | Some b, Some bs => Some (b :: bs)
                | _, _ => None
                end
            | None => None
            end
        | _, _ => None
        end
  end.

(** [bytes.fromhex(s)]: pairs of hexadecimal digits, white space allowed
    between pairs, anything else raises [ValueError]. *)
Definition fromhex (s : string) : result (list Byte.byte) :=
  match fromhex_opt s with
  | Some b => Ok b
  | None => Raise ValueError
  end.

(** [s.encode()]: UTF-8 of the code points U+0000..U+00FF. *)
Definition encode_char (c : ascii) : list Byte.byte :=
  let n := N_of_ascii c in
  if (n <? 128)%N then [byte_of_ascii c]
  else
    match Byte.of_N (192 + n / 64), Byte.of_N (128 + n mod 64) with
    | Some b1, Some b2 => [b1; b2]
    | _, _ => []
    end.

Fixpoint encode (s : string) : list Byte.byte :=
  match s with
  | EmptyString => []
  | String c rest => encode_char c ++ encode rest
  end.

End Py.

(** ** Decoded JSON documents *)

(** What [json.loads] builds: [None], [bool], [int], [float], [str], [list]
    and [dict] (keys in insertion order, each key once). *)
Inductive json : Type :=
| JNull
| JBool (b : bool)
| JInt (n : Z)
| JFloat (x : float)
| JStr (s : string)
| JList (l : list json)
| JDict (d : list (string * json)).

Module Json.

(** [bool(v)] *)
Definition truthy (v : json) : bool :=
  match v with
  | JNull => false
  | JBool b => b
  | JInt n => negb (n =? 0)
  | JFloat x => negb (PrimFloat.eqb x 0%float)
  | JStr s => Py.str_truthy s
  | JList l => match l with [] => false | _ => true end
  | JDict d => match d with [] => false | _ => true end
  end.

Fixpoint assoc (k : string) (d : list (string * json)) : option json :=
  match d with
  | [] => None
  | (k', v) :: rest => if decide (k = k') then Some v else assoc k rest
  end.

(** [v.get(k)]: [AttributeError] unless [v] is a [dict]; a missing key
    gives [None]. *)
Definition get (v : json) (k : string) : result (option json) :=
  match v with
  | JDict d => Ok (assoc k d)
  | _ => Raise AttributeError
  end.

(** [v.get(k, default)] *)
Definition get_default (v : json) (k : string) (default : json) : result json :=
  match v with
  | JDict d => Ok (match assoc k d with Some x => x | None => default end)
  | _ => Raise AttributeError
  end.

(** [v > 0] *)
Definition gt_zero (v : json) : result bool :=
  match v with
  | JBool b => Ok b
  | JInt n => Ok (0 <? n)
  | JFloat x => Ok (PrimFloat.ltb 0%float x)
  | _ => Raise TypeError
  end.

Definition squote : ascii := ascii_of_N 39.
Definition dquote : ascii := ascii_of_N 34.
Definition backslash : ascii := ascii_of_N 92.

Fixpoint contains (c : ascii) (s : string) : bool :=
  match s with
  | EmptyString => false
  | String c' rest => if decide (c = c') then true else contains c rest
  end.

Definition hex_escape (n : N) : string :=
  String backslash (String "x"
    (String (Py.hex_digit (n / 16)) (String (Py.hex_digit (n mod 16)) ""))).

(** One character of [repr(s)], [q] being the quote in use.  Code points
    U+0080..U+00A0 and U+00AD are not printable. *)
Definition repr_char (q c : ascii) : string :=
  let n := N_of_ascii c in
  if decide (c = q) then String backslash (String c "")
  else if decide (c = backslash) then String backslash (String c "")
  else if (n =? 9)%N then String backslash "t"
  else if (n =? 10)%N then String backslash "n"
  else if (n =? 13)%N then String backslash "r"
  else if ((n <? 32) || (n =? 127))%N then hex_escape n
  else if (n <? 127)%N then String c ""
  else if (((128 <=? n) && (n <=? 160)) || (n =? 173))%N then hex_escape n
  else String c "".

Fixpoint repr_chars (q : ascii) (s : string) : string :=
  match s with
  | EmptyString => ""
  | String c rest => repr_char q c +:+ repr_chars q rest
  end.

(** [repr(s)] for a [str]: single quotes, unless the text has a single
    quote and no double quote. *)
Definition repr_str (s : string) : string :=
  let q := if contains squote s && negb (contains dquote s)
           then dquote else squote in
  String q (repr_chars q s +:+ String q "").

(** [repr(l)] for a list of [str], as an f-string prints it. *)
Definition repr_str_list (l : list string) : string :=
  "[" +:+ Py.join ", " (map repr_str l) +:+ "]".

Section WithFloatRepr.

(** [repr(x)] for a [float] (the shortest decimal text that reads back
    as [x]) is the runtime's and stays a parameter. *)
Variable float_repr : float -> string.

Fixpoint repr (v : json) : string :=
  match v with
  | JNull => "None"
  | JBool b => if b then "True" else "False"
  | JInt n => Py.str_of_int n
  | JFloat x => float_repr x
  | JStr s => repr_str s
  | JList l => "[" +:+ Py.join ", " (map repr l) +:+ "]"
  | JDict d =>
      "{" +:+ Py.join ", "
                (map (fun kv => repr_str (fst kv) +:+ ": " +:+ repr (snd kv)) d)
          +:+ "}"
  end.

(** [str(v)], what an f-string field prints. *)
Definition str (v : json) : string :=
  match v with
  | JStr s => s
  | _ => repr v
  end.

End WithFloatRepr.

(** The items a [for] loop or [join] sees when it iterates [v]: the
    elements of a list, the keys of a dict, the characters of a string;
    anything else is not iterable. *)
Fixpoint chars (s : string) : list json :=
  match s with
  | EmptyString => []
  | String c rest => JStr (String c "") :: chars rest
  end.

Definition iter (v : json) : result (list json) :=
  match v with
  | JList l => Ok l
  | JDict d => Ok (map (fun kv => JStr (fst kv)) d)
  | JStr s => Ok (chars s)
  | _ => Raise TypeError
  end.

(** The [str] items of a sequence, [TypeError] at the first other item. *)
Fixpoint all_str (l : list json) : result (list string) :=
  match l with
  | [] => Ok []
  | JStr s :: rest =>
      match all_str rest with
      | Ok ss => Ok (s :: ss)
      | Raise e => Raise e
      end
  | _ :: _ => Raise TypeError
  end.

(** [sep.join(v)] *)
Definition join (sep : string) (v : json) : result string :=
  (items <- iter v ;;
   ss <- all_str items ;;
   Ok (Py.join sep ss))%res.

End Json.

(** ** Configuration, HTTP messages and the world *)

(** [settings.py]: the fields of [Settings] that [core.py] and [api.py]
    read ([api_key] after [get_secret_value()]). *)
Record Settings : Type := {
  client_ip_encryption_key : string;
  context7_api_base_url : string;
  default_tokens : Z;
  minimum_tokens : Z;
  api_key : string
}.

(** One [client.get(url, params=..., headers=...)]. *)
Record HttpRequest : Type := {
  url : string;
  params : list (string * string);
  headers : gmap string string
}.

(** What the code reads of an [httpx] response. *)
Record HttpResponse : Type := {
  status_code : Z;
  text : string
}.

(** The world a coroutine runs in: the upstream calls issued so far, oldest
    first, and how many times the random source was drawn from. *)
Record World : Type := {
  calls : list HttpRequest;
  draws : nat
}.

Definition IO (A : Type) : Type := World -> result A * World.

Definition ret {A} (a : A) : IO A := fun w => (Ok a, w).

Definition raise {A} (e : exn) : IO A := fun w => (Raise e, w).

Definition lift {A} (r : result A) : IO A := fun w => (r, w).

Definition bind {A B} (m : IO A) (k : A -> IO B) : IO B :=
  fun w =>
    match m w with
    | (Ok a, w') => k a w'
    | (Raise e, w') => (Raise e, w')
    end.

Declare Scope io_scope.
Delimit Scope io_scope with io.
Notation "x <- c1 ;; c2" := (bind c1 (fun x => c2))
  (at level 100, c1 at next level, right associativity) : io_scope.

Definition newline : string := String (ascii_of_N 10) "".

(** [padding.PKCS7(128)]: fill up to the next multiple of 16 bytes with
    [k] bytes of value [k], [1 <= k <= 16]. *)
Definition pkcs7_pad (data : list Byte.byte) : list Byte.byte :=
  let k := (16 - (length data) mod 16)%nat in
  match Byte.of_N (N.of_nat k) with
  | Some b => (data ++ repeat b k)%list
  | None => data
  end.

(** [algorithms.AES(key)]: the key sizes the class accepts. *)
Definition algorithms_AES (key : list Byte.byte) : result unit :=
  let bits := (length key * 8)%nat in
  if existsb (Nat.eqb bits) [128; 192; 256; 512]%nat then Ok tt
  else Raise ValueError.

(** [Cipher(algorithm, modes.CBC(iv))]: CBC takes no key above 256 bits and
    needs an initialisation vector of one block. *)
Definition Cipher_CBC (key iv : list Byte.byte) : result unit :=
  if (256 <? length key * 8)%nat then Raise ValueError
  else if negb (length iv * 8 =? 128)%nat then Raise ValueError
  else Ok tt.

(** ** schemas.py: the pydantic models *)

(** The value of a model field. *)
Inductive pyval : Type :=
| VStr (s : string)
| VInt (n : Z)
| VStrList (l : list string)
| VIntList (l : list Z).

(** A pydantic model: [model_dump] lists its fields by name, in the order
    the class declares them.  Reading an attribute that is not a field
    raises [AttributeError]. *)
Class BaseModel (T : Type) : Type :=
  model_dump : T -> list (string * pyval).

Fixpoint lookup_field (name : string) (fields : list (string * pyval))
    : option pyval :=
  match fields with
  | [] => None
  | (k, v) :: rest =>
      if decide (name = k) then Some v else lookup_field name rest
  end.

Definition getattr {T} `{BaseModel T} (obj : T) (name : string)
    : result pyval :=
  match lookup_field name (model_dump obj) with
  | Some v => Ok v
  | None => Raise AttributeError
  end.

(** The attribute read where the code goes on to use a [str], an [int] or a
    list; a value of another kind fails at that use with [TypeError]. *)
Definition getattr_str {T} `{BaseModel T} (obj : T) (name : string)
    : result string :=
  (v <- getattr obj name ;;
   match v with VStr s => Ok s | _ => Raise TypeError end)%res.

Definition getattr_int {T} `{BaseModel T} (obj : T) (name : string)
    : result Z :=
  (v <- getattr obj name ;;
   match v with VInt n => Ok n | _ => Raise TypeError end)%res.

Definition getattr_str_list {T} `{BaseModel T} (obj : T) (name : string)
    : result (list string) :=
  (v <- getattr obj name ;;
   match v with VStrList l => Ok l | _ => Raise TypeError end)%res.

Definition getattr_int_list {T} `{BaseModel T} (obj : T) (name : string)
    : result (list Z) :=
  (v <- getattr obj name ;;
   match v with VIntList l => Ok l | _ => Raise TypeError end)%res.

Inductive ResolveLibraryIDRequest : Type :=
| mk_ResolveLibraryIDRequest (library_name : string).

Inductive ResolveLibraryIDResponse : Type :=
| mk_ResolveLibraryIDResponse (library_id : string).

Inductive ResolveMultipleLibraryIDsRequest : Type :=
| mk_ResolveMultipleLibraryIDsRequest (library_names : list string).

Inductive ResolveMultipleLibraryIDsResponse : Type :=
| mk_ResolveMultipleLibraryIDsResponse (library_ids : list string).

Inductive GetLibraryDocsRequest : Type :=
| mk_GetLibraryDocsRequest (library_id : string) (tokens : Z) (topic : string).

Inductive GetLibraryDocsResponse : Type :=
| mk_GetLibraryDocsResponse (library_info : string).

(** The first field of this model is declared as [library_id], in the
    singular, although it holds a list. *)
Inductive GetMultipleLibraryDocsRequest : Type :=
| mk_GetMultipleLibraryDocsRequest
    (library_id : list string) (tokens : list Z) (topics : list string).

Inductive GetMultipleLibraryDocsResponse : Type :=
| mk_GetMultipleLibraryDocsResponse (library_infos : list string).

#[export] Instance ResolveLibraryIDRequest_model
    : BaseModel ResolveLibraryIDRequest :=
  fun r =>
    match r with
    | mk_ResolveLibraryIDRequest library_name =>
        [("library_name", VStr library_name)]
    end.

#[export] Instance ResolveMultipleLibraryIDsRequest_model
    : BaseModel ResolveMultipleLibraryIDsRequest :=
  fun r =>
    match r with
    | mk_ResolveMultipleLibraryIDsRequest library_names =>
        [("library_names", VStrList library_names)]
    end.

#[export] Instance GetLibraryDocsRequest_model
    : BaseModel GetLibraryDocsRequest :=
  fun r =>
    match r with
    | mk_GetLibraryDocsRequest library_id tokens topic =>
        [("library_id", VStr library_id);
         ("tokens", VInt tokens);
         ("topic", VStr topic)]
    end.

#[export] Instance GetMultipleLibraryDocsRequest_model
    : BaseModel GetMultipleLibraryDocsRequest :=
  fun r =>
    match r with
    | mk_GetMultipleLibraryDocsRequest library_id tokens topics =>
        [("library_id", VStrList library_id);
         ("tokens", VIntList tokens);
         ("topics", VStrList topics)]
    end.

(** An object with the three attributes [get_multiple_library_docs] reads,
    under the names it reads them by. *)
Inductive AlignedBatch : Type :=
| mk_AlignedBatch
    (library_ids : list string) (tokens : list Z) (topics : list string).

#[export] Instance AlignedBatch_model : BaseModel AlignedBatch :=
  fun r =>
    match r with
    | mk_AlignedBatch library_ids tokens topics =>
        [("library_ids", VStrList library_ids);
         ("tokens", VIntList tokens);
         ("topics", VStrList topics)]
    end.

(** ** settings.py: how the configuration prints itself *)

(** [s.lower()] on the code points U+0000..U+00FF: the letters A to Z and
    the capital letters U+00C0..U+00DE other than the multiplication sign
    move up by 32. *)
Definition lower_char (c : ascii) : ascii :=
  let n := N_of_ascii c in
  if (((65 <=? n) && (n <=? 90))
      || ((192 <=? n) && (n <=? 222) && negb (n =? 215)))%N
  then ascii_of_N (n + 32)
  else c.

Fixpoint lower (s : string) : string :=
  match s with
  | EmptyString => EmptyString
  | String c rest => String (lower_char c) (lower rest)
  end.

(** [needle in hay] for two [str]. *)
Fixpoint is_substring (needle hay : string) : bool :=
  if String.prefix needle hay then true
  else match hay with
       | EmptyString => false
       | String _ rest => is_substring needle rest
       end.

(** A value of [model_dump()]: a [str], an [int], a [bool] or a
    [SecretStr]. *)
Inductive field_value : Type :=
| FStr (s : string)
| FInt (n : Z)
| FBool (b : bool)
| FSecret (s : string).

(** [str(value)]; a [SecretStr] shows ten asterisks, or nothing when it is
    empty. *)
Definition field_str (v : field_value) : string :=
  match v with
  | FStr s => s
  | FInt n => Py.str_of_int n
  | FBool b => if b then "True" else "False"
  | FSecret s => if Py.str_truthy s then "**********" else ""
  end.

(** The fields of [Settings] that the core does not read, around the ones
    it reads. *)
Record ServerSettings : Type := {
  app_host : string;
  app_port : Z;
  mcp_path : string;
  api_path : string;
  log_level : string;
  cert_file : string;
  key_file : string;
  app_root_path : string;
  core_settings : Settings;
  fastmcp_experimental_enable_new_openapi_parser : bool
}.

(** [self.model_dump().items()], in the order the class declares its
    fields. *)
Definition Settings_model_dump (s : ServerSettings)
    : list (string * field_value) :=
  [("app_host", FStr (app_host s));
   ("app_port", FInt (app_port s));
   ("mcp_path", FStr (mcp_path s));
   ("api_path", FStr (api_path s));
   ("log_level", FStr (log_level s));
   ("cert_file", FStr (cert_file s));
   ("key_file", FStr (key_file s));
   ("app_root_path", FStr (app_root_path s));
   ("client_ip_encryption_key", FStr (client_ip_encryption_key (core_settings s)));
   ("context7_api_base_url", FStr (context7_api_base_url (core_settings s)));
   ("default_tokens", FInt (default_tokens (core_settings s)));
   ("minimum_tokens", FInt (minimum_tokens (core_settings s)));
   ("api_key", FSecret (api_key (core_settings s)));
   ("fastmcp_experimental_enable_new_openapi_parser",
    FBool (fastmcp_experimental_enable_new_openapi_parser s))].

Definition secret_terms : list string := ["secret"; "password"].

(** The inner loop of [__str__]: the value is replaced by ["***"] for each
    term that the lower-cased key contains. *)
Definition mask_secret (key : string) (value : field_value) : field_value :=
  fold_left
    (fun value secret_term =>
       if is_substring (lower secret_term) (lower key) then FStr "***"
       else value)
    secret_terms value.

(** The outer loop of [__str__], for any dump. *)
Definition Settings_str_of_dump (dump : list (string * field_value)) : string :=
  fold_left
    (fun msg kv =>
       msg +:+ ("  " +:+ fst kv +:+ ": "
                  +:+ field_str (mask_secret (fst kv) (snd kv)) +:+ newline))
    dump
    (newline +:+ "Loaded config:" +:+ newline).

(** [Settings.__str__] *)
Definition Settings_str (s : ServerSettings) : string :=
  Settings_str_of_dump (Settings_model_dump s).

(** ** logger.py: the location column of [formatter] *)

Fixpoint string_drop (n : nat) (s : string) : string :=
  match n, s with
  | O, _ => s
  | S n', String _ rest => string_drop n' rest
  | S _, EmptyString => EmptyString
  end.

Fixpoint spaces (n : nat) : string :=
  match n with
  | O => EmptyString
  | S n' => String " " (spaces n')
  end.

(** [s[-n:]] for a positive [n] *)
Definition last_chars (n : nat) (s : string) : string :=
  string_drop (String.length s - n) s.

(** [s.ljust(width)] *)
Definition ljust (width : nat) (s : string) : string :=
  s +:+ spaces (width - String.length s).

(** The location text of a log record, from the shortened path and the line
    number: cut to its last 22 characters after three dots when it is longer
    than 25, filled with blanks up to 25 otherwise. *)
Definition loc_content (file_path : string) (line : Z) : string :=
  let max_len := 25%nat in
  let line_str := Py.str_of_int line in
  let loc_content := file_path +:+ ":" +:+ line_str in
  if (max_len <? String.length loc_content)%nat
  then
    let pad_len := (max_len - 3)%nat in
    "..." +:+ last_chars pad_len loc_content
  else ljust max_len loc_content.

(** ** A concrete deployment, for the examples at the end *)

Module Example.

Definition settings : Settings :=
  {| client_ip_encryption_key := "000102030405060708090a0b0c0d0e0f";
     context7_api_base_url := "https://context7.com/api";
     default_tokens := 5000;
     minimum_tokens := 1000;
     api_key := "secret" |}.

(** The same deployment with a key of four bytes. *)
Definition settings_short_key : Settings :=
  {| client_ip_encryption_key := "00112233";
     context7_api_base_url := "https://context7.com/api";
     default_tokens := 5000;
     minimum_tokens := 1000;
     api_key := "secret" |}.

Definition entropy (i n : nat) : list Byte.byte := repeat x2a n.

(** A stand-in for the block cipher: the examples do not depend on what the
    cipher text is. *)
Definition aes_cbc_encrypt (key iv data : list Byte.byte) : list Byte.byte :=
  data.

Definition float_repr (x : float) : string := "0.0".

Definition quoted (s : string) : string :=
  String Json.dquote (s +:+ String Json.dquote "").

(** The body of a search answer without hits, and of one with a hit. *)
Definition no_hits_body : string :=
  "{" +:+ quoted "results" +:+ ": []}".

Definition one_hit_body : string :=
  "{" +:+ quoted "results" +:+ ": [{" +:+ quoted "title" +:+ ": "
      +:+ quoted "FastAPI" +:+ ", " +:+ quoted "id" +:+ ": "
      +:+ quoted "/tiangolo/fastapi" +:+ "}]}".

(** [json.loads] on the bodies the example catalog sends; any other body it
    sends is not JSON. *)
Definition json_loads (body : string) : option json :=
  if decide (body = no_hits_body) then Some (JDict [("results", JList [])])
  else if decide (body = one_hit_body)
  then Some (JDict [("results",
                     JList [JDict [("title", JStr "FastAPI");
                                   ("id", JStr "/tiangolo/fastapi")]])])
  else None.

(** A catalog: the search for ["bad"] has no hits, the search for ["odd"]
    is answered with a page that is not JSON, every other search has one
    hit; the library [bad/id] has the sentinel text, [empty/id] an empty
    body, [gone/id] status 404, and every other library its text. *)
Definition upstream (history : list HttpRequest) (req : HttpRequest)
    : HttpResponse :=
  if decide (url req = "https://context7.com/api/v1/search") then
    if decide (params req = [("query", "bad")])
    then {| status_code := 200; text := no_hits_body |}
    else if decide (params req = [("query", "odd")])
    then {| status_code := 200; text := "<html>Service page</html>" |}
    else {| status_code := 200; text := one_hit_body |}
  else if decide (url req = "https://context7.com/api/v1/bad/id")
  then {| status_code := 200; text := "No content available" |}
  else if decide (url req = "https://context7.com/api/v1/empty/id")
  then {| status_code := 200; text := "" |}
  else if decide (url req = "https://context7.com/api/v1/gone/id")
  then {| status_code := 404; text := "Not Found" |}
  else {| status_code := 200; text := "Documentation of " +:+ url req |}.

Definition world : World := {| calls := []; draws := 0 |}.

End Example.

Section Context7.

(** The process-wide configuration object [settings]. *)
Variable settings : Settings.

(** [entropy i n]: the bytes of the [i]-th call of
    [secrets.token_bytes], asked for [n] bytes. *)
Variable entropy : nat -> nat -> list Byte.byte.

(** The block cipher of the [cryptography] package:
    [aes_cbc_encrypt key iv padded] is the cipher text. *)
Variable aes_cbc_encrypt :
  list Byte.byte -> list Byte.byte -> list Byte.byte -> list Byte.byte.

(** The catalog service: its answer to a request, given the calls that
    were issued before it. *)
Variable upstream : list HttpRequest -> HttpRequest -> HttpResponse.

(** [json.loads] on a response body; [None] when the body is not JSON. *)
Variable json_loads : string -> option json.

(** [repr] of a [float]. *)
Variable float_repr : float -> string.

(** *** core.py *)

Definition token_bytes (n : nat) : IO (list Byte.byte) :=
  fun w =>
    (Ok (entropy (draws w) n),
     {| calls := calls w; draws := S (draws w) |}).

Definition encrypt_client_ip (ip : string) : IO string :=
  (let key_hex := client_ip_encryption_key settings in
   key <- lift (Py.fromhex key_hex) ;;
   iv <- token_bytes 16 ;;
   _ <- lift (algorithms_AES key) ;;
   _ <- lift (Cipher_CBC key iv) ;;
   let padded := pkcs7_pad (Py.encode ip) in
   let ct := aes_cbc_encrypt key iv padded in
   ret (Py.hex iv +:+ ":" +:+ Py.hex ct))%io.

Definition generate_headers (client_ip api_key : option string)
    (extra : option (gmap string string)) : IO (gmap string string) :=
  (let headers : gmap string string :=
     match extra with
     | Some d => if decide (d = ∅) then ∅ else d
     | None => ∅
     end in
   headers <-
     match client_ip with
     | Some ip =>
         if Py.str_truthy ip
         then (enc <- encrypt_client_ip ip ;;
               ret (<["mcp-client-ip" := enc]> headers))
         else ret headers
     | None => ret headers
     end ;;
   let headers :=
     match api_key with
     | Some k =>
         if Py.str_truthy k
         then <["Authorization" := "Bearer " +:+ k]> headers
         else headers
     | None => headers
     end in
   ret headers)%io.

(** [await client.get(url, params=params, headers=headers)] *)
Definition client_get (u : string) (p : list (string * string))
    (h : gmap string string) : IO HttpResponse :=
  fun w =>
    let req := {| url := u; params := p; headers := h |} in
    (Ok (upstream (calls w) req),
     {| calls := (calls w ++ [req])%list; draws := draws w |}).

(** [r.json()] *)
Definition response_json (r : HttpResponse) : result json :=
  match json_loads (text r) with
  | Some v => Ok v
  | None => Raise JSONDecodeError
  end.

Definition search_libraries (query : string)
    (client_ip api_key : option string) : IO json :=
  (let u := context7_api_base_url settings +:+ "/v1/search" in
   h <- generate_headers client_ip api_key None ;;
   r <- client_get u [("query", query)] h ;;
   if decide (status_code r = 200)
   then lift (response_json r)
   else ret (JDict [("error", JStr (Py.str_of_int (status_code r)));
                    ("results", JList [])]))%io.

Definition fetch_library_docs (library_id : string) (tokens : Z)
    (topic : string) (client_ip api_key : option string)
    : IO (option string) :=
  (let library_id :=
     if Py.startswith_slash library_id then Py.drop_first library_id
     else library_id in
   let u := context7_api_base_url settings +:+ "/v1/" +:+ library_id in
   let p := [("tokens", Py.str_of_int (Z.max tokens (minimum_tokens settings)));
             ("topic", topic);
             ("type", "txt")] in
   h <- generate_headers client_ip api_key
          (Some {["X-Context7-Source" := "mcp-server"]}) ;;
   r <- client_get u p h ;;
   if decide (status_code r = 200)
   then
     let t := text r in
     ret (if decide (t = "No content available") then None
          else if decide (t = "No context data available") then None
          else Some t)
   else ret None)%io.

Definition opt_truthy (o : option json) : bool :=
  match o with Some v => Json.truthy v | None => false end.

(** The body of the loop of [format_search_results], for one hit [r]. *)
Definition format_hit (r : json) : result string :=
  (title <- Json.get_default r "title" (JStr "") ;;
   id <- Json.get_default r "id" (JStr "") ;;
   description <- Json.get_default r "description" (JStr "") ;;
   let out := ["- Title: " +:+ Json.str float_repr title;
               "- ID: " +:+ Json.str float_repr id;
               "- Description: " +:+ Json.str float_repr description] in
   snippets <- Json.get_default r "totalSnippets" (JInt (-1)) ;;
   positive <- Json.gt_zero snippets ;;
   let out :=
     if positive
     then (out ++ ["- Code Snippets: " +:+ Json.str float_repr snippets])%list
     else out in
   trust <- Json.get r "trustScore" ;;
   let out :=
     match trust with
     | Some v =>
         if Json.truthy v
         then (out ++ ["- Trust Score: " +:+ Json.str float_repr v])%list
         else out
     | None => out
     end in
   versions <- Json.get r "versions" ;;
   out <-
     match versions with
     | Some v =>
         if Json.truthy v
         then (joined <- Json.join ", " v ;;
               Ok (out ++ ["- Versions: " +:+ joined])%list)
         else Ok out
     | None => Ok out
     end ;;
   Ok (Py.join newline out))%res.

Fixpoint format_hits (hits : list json) : result (list string) :=
  match hits with
  | [] => Ok []
  | r :: rest =>
      (block <- format_hit r ;;
       blocks <- format_hits rest ;;
       Ok (block :: blocks))%res
  end.

Definition format_search_results (resp : json) : result string :=
  (results <- Json.get_default resp "results" (JList []) ;;
   hits <- Json.iter results ;;
   res <- format_hits hits ;;
   Ok (Py.join (newline +:+ "----------" +:+ newline) res))%res.

(** *** asyncio.gather *)

(** Each awaitable becomes a task; the tasks start in the order of the
    argument list, so their upstream calls are issued in that order.  Every
    coroutine of this package makes at most one call, so running a task up
    to its outcome here and letting it complete later, at a position chosen
    by the schedule, loses nothing. *)
Fixpoint run_tasks {A} (tasks : list (IO A)) (w : World)
    : list (result A) * World :=
  match tasks with
  | [] => ([], w)
  | t :: rest =>
      let '(r, w1) := t w in
      let '(rs, w2) := run_tasks rest w1 in
      (r :: rs, w2)
  end.

(** [fut.result()]: the value of a finished future, its exception if it
    failed, [InvalidStateError] if it is not done. *)
Definition future_result {A} (fut : option (result A)) : result A :=
  match fut with
  | Some r => r
  | None => Raise InvalidStateError
  end.

Fixpoint future_results {A} (children : list (option (result A)))
    : result (list A) :=
  match children with
  | [] => Ok []
  | fut :: rest =>
      (a <- future_result fut ;;
       l <- future_results rest ;;
       Ok (a :: l))%res
  end.

(** The done-callbacks of [gather], fired in completion order.  [children]
    holds the futures by position; the task at position [i] finishes with
    [outcomes !! i].  The first exception resolves the outer future at
    once; when every child is done the results are read by position.  An
    index that names no task, or a task that is already done, fires
    nothing. *)
Fixpoint gather_callbacks {A} (outcomes : list (result A))
    (children : list (option (result A))) (order : list nat)
    : result (list A) :=
  match order with
  | [] => future_results children
  | i :: rest =>
      match children !! i, outcomes !! i with
      | Some None, Some (Raise e) => Raise e
      | Some None, Some (Ok a) =>
          gather_callbacks outcomes (<[i := Some (Ok a)]> children) rest
      | _, _ => gather_callbacks outcomes children rest
      end
  end.

(** [await asyncio.gather] on the unpacked list [tasks].  [sched] lists
    task positions in the order in which the tasks complete; tasks it
    leaves out complete afterwards, in task order. *)
Definition gather {A} (sched : list nat) (tasks : list (IO A))
    : IO (list A) :=
  fun w =>
    let '(outcomes, w') := run_tasks tasks w in
    let n := length tasks in
    (gather_callbacks outcomes (replicate n None) (sched ++ seq 0 n)%list, w').

(** *** api.py *)

Definition resolve_library_id (request : ResolveLibraryIDRequest)
    : IO ResolveLibraryIDResponse :=
  (library_name <- lift (getattr_str request "library_name") ;;
   resp <- search_libraries library_name None (Some (api_key settings)) ;;
   results <- lift (Json.get resp "results") ;;
   if negb (opt_truthy results)
   then raise LibraryNotFoundException_default
   else
     result <- lift (format_search_results resp) ;;
     ret (mk_ResolveLibraryIDResponse result))%io.

Definition get_library_docs (request : GetLibraryDocsRequest)
    : IO GetLibraryDocsResponse :=
  (library_id <- lift (getattr_str request "library_id") ;;
   tokens <- lift (getattr_int request "tokens") ;;
   topic <- lift (getattr_str request "topic") ;;
   docs <- fetch_library_docs library_id tokens topic
             None (Some (api_key settings)) ;;
   match docs with
   | Some d =>
       if Py.str_truthy d then ret (mk_GetLibraryDocsResponse d)
       else raise DocumentationNotFoundException_default
   | None => raise DocumentationNotFoundException_default
   end)%io.

Section Handlers.

(** The two batch handlers only read attributes of [request]; they are
    written here for any model class and used at the class of their
    annotation. *)
Context {T : Type} `{BaseModel T}.

(** The inner coroutine [_search] of [resolve_multiple_library_ids]. *)
Definition _search (request : T) (name : string) : IO string :=
  (resp <- search_libraries name None (Some (api_key settings)) ;;
   results <- lift (Json.get resp "results") ;;
   if negb (opt_truthy results)
   then
     library_names <- lift (getattr_str_list request "library_names") ;;
     raise (LibraryNotFoundException 404
              ("No matching library ids found for names "
                 +:+ Json.repr_str_list library_names))
   else lift (format_search_results resp))%io.

Definition resolve_multiple_library_ids_on (sched : list nat)
    (request : T) : IO ResolveMultipleLibraryIDsResponse :=
  (library_names <- lift (getattr_str_list request "library_names") ;;
   results <- gather sched (map (_search request) library_names) ;;
   ret (mk_ResolveMultipleLibraryIDsResponse results))%io.

(** The inner coroutine [_fetch] of [get_multiple_library_docs]. *)
Definition _fetch (lib_id : string) (t : Z) (top : string) : IO string :=
  (docs <- fetch_library_docs lib_id t top None (Some (api_key settings)) ;;
   ret (match docs with
        | Some d =>
            if Py.str_truthy d then d
            else "Documentation not found for " +:+ lib_id
                   +:+ " with topic '" +:+ top +:+ "'."
        | None =>
            "Documentation not found for " +:+ lib_id
              +:+ " with topic '" +:+ top +:+ "'."
        end))%io.

(** [l[i]] *)
Definition index {A} (l : list A) (i : nat) : result A :=
  match l !! i with
  | Some a => Ok a
  | None => Raise IndexError
  end.

(** The list comprehension that builds the [_fetch] coroutines. *)
Fixpoint fetch_tasks (request : T) (range : list nat)
    : result (list (IO string)) :=
  match range with
  | [] => Ok []
  | i :: rest =>
      (library_ids <- getattr_str_list request "library_ids" ;;
       lib_id <- index library_ids i ;;
       tokens <- getattr_int_list request "tokens" ;;
       t <- index tokens i ;;
       topics <- getattr_str_list request "topics" ;;
       top <- index topics i ;;
       tasks <- fetch_tasks request rest ;;
       Ok (_fetch lib_id t top :: tasks))%res
  end.

Definition get_multiple_library_docs_on (sched : list nat)
    (request : T) : IO GetMultipleLibraryDocsResponse :=
  (library_ids <- lift (getattr_str_list request "library_ids") ;;
   tokens <- lift (getattr_int_list request "tokens") ;;
   lengths_match <-
     (if decide (length library_ids = length tokens)
      then
        topics <- lift (getattr_str_list request "topics") ;;
        ret (bool_decide (length tokens = length topics))
      else ret false) ;;
   if negb lengths_match
   then raise (HTTPException 400
                 "Lengths of library_ids, tokens, and topics must match.")
   else
     library_ids <- lift (getattr_str_list request "library_ids") ;;
     tasks <- lift (fetch_tasks request (seq 0 (length library_ids))) ;;
     results <- gather sched tasks ;;
     ret (mk_GetMultipleLibraryDocsResponse results))%io.

End Handlers.

(** The two routes, at the request classes of their signatures. *)
Definition resolve_multiple_library_ids (sched : list nat)
    (request : ResolveMultipleLibraryIDsRequest)
    : IO ResolveMultipleLibraryIDsResponse :=
  resolve_multiple_library_ids_on sched request.

Definition get_multiple_library_docs (sched : list nat)
    (request : GetMultipleLibraryDocsRequest)
    : IO GetMultipleLibraryDocsResponse :=
  get_multiple_library_docs_on sched request.

(** ** Notions used in the statements *)

(** The property of the header map that the description of
    [generate_headers] suggests: the identity header is there exactly when
    an address is passed, the authorization header exactly when a key is
    passed, and every extra header is found unchanged. *)
Definition headers_as_described (client_ip api_key : option string)
    (extra : option (gmap string string)) (h : gmap string string) : Prop :=
  (is_Some (h !! "mcp-client-ip") <-> is_Some client_ip)
  /\ (is_Some (h !! "Authorization") <-> is_Some api_key)
  /\ (forall k v, default (∅ : gmap string string) extra !! k = Some v -> h !! k = Some v).

(** A search answer that counts as "nothing found": its ["results"] entry
    is missing or falsy. *)
Definition finds_nothing (resp : json) : bool :=
  match Json.get resp "results" with
  | Ok o => negb (opt_truthy o)
  | Raise _ => false
  end.

(** The message of the exception [_search] raises for the batch [names]. *)
Definition names_not_found (names : list string) : exn :=
  LibraryNotFoundException 404
    ("No matching library ids found for names " +:+ Json.repr_str_list names).

(** What [_search] makes of the outcome of its search call. *)
Definition search_outcome (names : list string) (a : result json)
    : result string :=
  (resp <- a ;;
   results <- Json.get resp "results" ;;
   if negb (opt_truthy results) then Raise (names_not_found names)
   else format_search_results resp)%res.

(** The text [_fetch] puts in place of documentation that was not found. *)
Definition placeholder (lib_id top : string) : string :=
  "Documentation not found for " +:+ lib_id +:+ " with topic '" +:+ top +:+ "'.".

(** What [_fetch] makes of the outcome of its fetch call. *)
Definition fetch_outcome (lib_id top : string) (a : result (option string))
    : result string :=
  (docs <- a ;;
   Ok (match docs with
       | Some d => if Py.str_truthy d then d else placeholder lib_id top
       | None => placeholder lib_id top
       end))%res.

(** The search calls of a batch of names, and the fetch calls of a batch of
    aligned triples, as coroutines in batch order. *)
Definition search_calls (names : list string) : list (IO json) :=
  map (fun name => search_libraries name None (Some (api_key settings))) names.

Definition fetch_call (item : string * (Z * string)) : IO (option string) :=
  fetch_library_docs item.1 item.2.1 item.2.2 None (Some (api_key settings)).

(** The shape of a hit that [format_search_results] can print: a dict whose
    ["totalSnippets"], if present, is a number or a boolean, and whose
    ["versions"], if present, is a list of strings, a string, a dict or a
    falsy scalar. *)
Definition is_str (v : json) : bool :=
  match v with JStr _ => true | _ => false end.

Definition snippets_comparable (f : list (string * json)) : bool :=
  match Json.assoc "totalSnippets" f with
  | None => true
  | Some (JBool _) | Some (JInt _) | Some (JFloat _) => true
  | Some _ => false
  end.

Definition versions_joinable (f : list (string * json)) : bool :=
  match Json.assoc "versions" f with
  | None => true
  | Some (JList l) => forallb is_str l
  | Some (JStr _) | Some (JDict _) => true
  | Some other => negb (Json.truthy other)
  end.

Definition hit_formattable (r : json) : bool :=
  match r with
  | JDict f => snippets_comparable f && versions_joinable f
  | _ => false
  end.

(** The line that separates two blocks of [format_search_results]. *)
Definition block_separator : string := newline +:+ "----------" +:+ newline.

(** The header map of the calls the handlers make: no client address, the
    configured key. *)
Definition handler_headers (extra : gmap string string) : gmap string string :=
  if Py.str_truthy (api_key settings)
  then <["Authorization" := "Bearer " +:+ api_key settings]> extra
  else extra.

(** The search call for a name and the fetch call for an id, a budget and a
    topic, as the handlers issue them. *)
Definition search_request (name : string) : HttpRequest :=
  {| url := context7_api_base_url settings +:+ "/v1/search";
     params := [("query", name)];
     headers := handler_headers ∅ |}.

Definition fetch_request (library_id : string) (tokens : Z) (topic : string)
    : HttpRequest :=
  {| url := context7_api_base_url settings +:+ "/v1/"
              +:+ (if Py.startswith_slash library_id
                   then Py.drop_first library_id else library_id);
     params := [("tokens", Py.str_of_int (Z.max tokens (minimum_tokens settings)));
                ("topic", topic); ("type", "txt")];
     headers := handler_headers {["X-Context7-Source" := "mcp-server"]} |}.

(** The fail-fast behaviour as the description of
    [resolve_multiple_library_ids] has it: one member that finds nothing is
    enough for the batch to raise the not-found exception that names the
    whole batch. *)
Definition fail_fast_as_described (sched : list nat)
    (library_names : list string) (w : World) : Prop :=
  (exists i resp,
     fst (run_tasks (search_calls library_names) w) !! i = Some (Ok resp)
     /\ finds_nothing resp = true) ->
  fst (resolve_multiple_library_ids sched
         (mk_ResolveMultipleLibraryIDsRequest library_names) w)
  = Raise (names_not_found library_names).

(** ** Properties of core.py *)

(** The request [fetch_library_docs] transmits once the headers [h] are
    built, and what it makes of the answer. *)
Lemma fetch_library_docs_run library_id tokens topic client_ip api_key w h w1 :
  generate_headers client_ip api_key
    (Some {["X-Context7-Source" := "mcp-server"]}) w = (Ok h, w1) ->
  fetch_library_docs library_id tokens topic client_ip api_key w =
    let req :=
      {| url := context7_api_base_url settings +:+ "/v1/"
                  +:+ (if Py.startswith_slash library_id
                       then Py.drop_first library_id else library_id);
         params := [("tokens", Py.str_of_int (Z.max tokens (minimum_tokens settings)));
                    ("topic", topic); ("type", "txt")];
         headers := h |} in
    let r := upstream (calls w1) req in
    (Ok (if decide (status_code r = 200)
         then if decide (text r = "No content available") then None
              else if decide (text r = "No context data available") then None
              else Some (text r)
         else None),
     {| calls := (calls w1 ++ [req])%list; draws := draws w1 |}).
Proof.
  intros Hh. unfold fetch_library_docs, bind. rewrite Hh. simpl.
  unfold client_get, ret. by destruct (decide _).
Qed.

Lemma fetch_library_docs_headers_fail library_id tokens topic client_ip api_key w e w1 :
  generate_headers client_ip api_key
    (Some {["X-Context7-Source" := "mcp-server"]}) w = (Raise e, w1) ->
  fetch_library_docs library_id tokens topic client_ip api_key w = (Raise e, w1).
Proof. intros Hh. unfold fetch_library_docs, bind. by rewrite Hh. Qed.

(** Without a client address no randomness is drawn and the headers are the
    extra ones plus, for a non-empty key, the bearer line. *)
Lemma generate_headers_no_ip api_key extra w :
  generate_headers None api_key extra w =
    (Ok (let headers : gmap string string :=
           match extra with
           | Some d => if decide (d = ∅) then ∅ else d
           | None => ∅
           end in
         match api_key with
         | Some k =>
             if Py.str_truthy k
             then <["Authorization" := "Bearer " +:+ k]> headers
             else headers
         | None => headers
         end), w).
Proof. reflexivity. Qed.

Lemma startswith_slash_slash s :
  Py.startswith_slash (String "/" s) = true.
Proof. unfold Py.startswith_slash. by destruct (decide ("/"%char = "/"%char)). Qed.

Lemma startswith_slash_false s :
  (forall rest, s <> String "/" rest) -> Py.startswith_slash s = false.
Proof.
  intros Hno. destruct s as [|c s]; [done|]. simpl.
  destruct (decide (c = "/"%char)) as [->|]; [|done]. by destruct (Hno s).
Qed.

(** C5.  [fetch_library_docs] transmits the library id with exactly one
    leading ["/"] removed (an id that starts with ["/"] loses that one
    character and no more; any other id goes out as it is), so that an id
    without a leading separator and the same id with one added produce the
    same call; and the [tokens] parameter is the decimal text of
    [max(tokens, settings.minimum_tokens)], which is never below the
    configured minimum. *)
Theorem fetch_library_docs_transmits
    library_id tokens topic client_ip api_key w h w1 :
  generate_headers client_ip api_key
    (Some {["X-Context7-Source" := "mcp-server"]}) w = (Ok h, w1) ->
  exists path,
    calls (snd (fetch_library_docs library_id tokens topic client_ip api_key w)) =
      (calls w1 ++
       [{| url := context7_api_base_url settings +:+ "/v1/" +:+ path;
           params := [("tokens", Py.str_of_int (Z.max tokens (minimum_tokens settings)));
                      ("topic", topic); ("type", "txt")];
           headers := h |}])%list
    /\ (forall rest, library_id = String "/" rest -> path = rest)
    /\ ((forall rest, library_id <> String "/" rest) -> path = library_id)
    /\ minimum_tokens settings <= Z.max tokens (minimum_tokens settings)
    /\ ((forall rest, library_id <> String "/" rest) ->
        fetch_library_docs (String "/" library_id) tokens topic client_ip api_key w =
        fetch_library_docs library_id tokens topic client_ip api_key w).
Proof.
  intros Hh.
  exists (if Py.startswith_slash library_id
          then Py.drop_first library_id else library_id).
  rewrite (fetch_library_docs_run _ _ _ _ _ _ _ _ Hh). simpl.
  split; [done|]. split; [|split; [|split]].
  - intros rest ->. by rewrite startswith_slash_slash.
  - intros Hno. by rewrite startswith_slash_false.
  - lia.
  - intros Hno.
    rewrite (fetch_library_docs_run (String "/" library_id) _ _ _ _ _ _ _ Hh).
    by rewrite (startswith_slash_false library_id Hno), startswith_slash_slash.
Qed.



(** [encrypt_client_ip], step by step: the key is decoded, the vector is
    drawn, the key size and the mode are checked, and only then is anything
    encrypted. *)
Lemma encrypt_client_ip_run ip w :
  encrypt_client_ip ip w =
    match Py.fromhex (client_ip_encryption_key settings) with
    | Raise e => (Raise e, w)
    | Ok key =>
        let iv := entropy (draws w) 16 in
        let w' := {| calls := calls w; draws := S (draws w) |} in
        match algorithms_AES key with
        | Raise e => (Raise e, w')
        | Ok _ =>
            match Cipher_CBC key iv with
            | Raise e => (Raise e, w')
            | Ok _ =>
                (Ok (Py.hex iv +:+ ":"
                       +:+ Py.hex (aes_cbc_encrypt key iv (pkcs7_pad (Py.encode ip)))),
                 w')
            end
        end
    end.
Proof.
  unfold encrypt_client_ip, bind, lift, token_bytes, ret.
  destruct (Py.fromhex _) as [key|e]; [|done]. simpl.
  destruct (algorithms_AES key); [|done].
  by destruct (Cipher_CBC key _).
Qed.

Lemma encrypt_client_ip_calls ip w :
  calls (snd (encrypt_client_ip ip w)) = calls w.
Proof.
  rewrite encrypt_client_ip_run.
  destruct (Py.fromhex _); [|done]. simpl.
  destruct (algorithms_AES _); [|done].
  by destruct (Cipher_CBC _ _).
Qed.

(** A key of 16, 24 or 32 bytes is accepted, whatever the address, as long
    as the random source hands out the 16 bytes it is asked for. *)
Lemma encrypt_client_ip_good_key ip w key :
  Py.fromhex (client_ip_encryption_key settings) = Ok key ->
  (length key = 16 \/ length key = 24 \/ length key = 32)%nat ->
  length (entropy (draws w) 16) = 16%nat ->
  is_ok (fst (encrypt_client_ip ip w)) = true.
Proof.
  intros Hkey Hlen Hiv. rewrite encrypt_client_ip_run, Hkey. simpl.
  unfold algorithms_AES, Cipher_CBC. rewrite Hiv.
  by destruct Hlen as [->|[->| ->]].
Qed.

Lemma bad_key_rejected key iv :
  ~ (length key = 16 \/ length key = 24 \/ length key = 32)%nat ->
  algorithms_AES key = Raise ValueError
  \/ (algorithms_AES key = Ok tt /\ Cipher_CBC key iv = Raise ValueError).
Proof.
  intros Hlen. unfold algorithms_AES, Cipher_CBC. simpl.
  destruct (Nat.eqb_spec (length key * 8) 128); [lia|].
  destruct (Nat.eqb_spec (length key * 8) 192); [lia|].
  destruct (Nat.eqb_spec (length key * 8) 256); [lia|].
  destruct (Nat.eqb_spec (length key * 8) 512) as [->|]; simpl; [|by left].
  by right.
Qed.

(** C9.  When the configured key is not the hexadecimal text of a byte
    string of an AES key length (16, 24 or 32 bytes), [encrypt_client_ip]
    raises, for every address, before anything is encrypted and without any
    upstream call; so does [generate_headers] whenever it is given an
    address.  The exception is the [ValueError] of the key decoding or of
    the cipher construction: the code has no exception class of its own for
    it. *)
Theorem encrypt_client_ip_bad_key ip w :
  ~ (exists key,
       Py.fromhex (client_ip_encryption_key settings) = Ok key
       /\ (length key = 16 \/ length key = 24 \/ length key = 32)%nat) ->
  (exists w', encrypt_client_ip ip w = (Raise ValueError, w')
              /\ calls w' = calls w)
  /\ (forall api_key extra,
        Py.str_truthy ip = true ->
        exists w', generate_headers (Some ip) api_key extra w = (Raise ValueError, w')
                   /\ calls w' = calls w).
Proof.
  intros Hbad.
  assert (exists w', encrypt_client_ip ip w = (Raise ValueError, w')
                     /\ calls w' = calls w) as (w' & Henc & Hcalls).
  { rewrite encrypt_client_ip_run. unfold Py.fromhex in *.
    destruct (Py.fromhex_opt _) as [key|]; [|by eexists].
    simpl.
    destruct (bad_key_rejected key (entropy (draws w) 16)) as [->|[-> ->]];
      [|by eexists|by eexists].
    intros Hlen. apply Hbad. by exists key. }
  split; [by exists w'|].
  intros api_key extra Hip. exists w'. split; [|done].
  unfold generate_headers, bind. rewrite Hip, Henc. done.
Qed.

(** C8, as the code has it.  Whenever [generate_headers] returns, the map it
    returns agrees with [extra] (nothing, when [extra] is absent) on every
    name other than ["mcp-client-ip"] and ["Authorization"]; it maps
    ["mcp-client-ip"] to the encrypted address when a non-empty address is
    passed and leaves that name as in [extra] otherwise; it maps
    ["Authorization"] to ["Bearer "] followed by the key when a non-empty key
    is passed and leaves that name as in [extra] otherwise. *)
Theorem generate_headers_contents client_ip api_key extra w h w' :
  generate_headers client_ip api_key extra w = (Ok h, w') ->
  let given : gmap string string := default ∅ extra in
  (forall k, k <> "mcp-client-ip" -> k <> "Authorization" -> h !! k = given !! k)
  /\ (forall ip, client_ip = Some ip -> ip <> "" ->
        exists enc, encrypt_client_ip ip w = (Ok enc, w')
                    /\ h !! "mcp-client-ip" = Some enc)
  /\ (client_ip = None \/ client_ip = Some "" ->
        h !! "mcp-client-ip" = given !! "mcp-client-ip" /\ w' = w)
  /\ (forall k, api_key = Some k -> k <> "" ->
        h !! "Authorization" = Some ("Bearer " +:+ k))
  /\ (api_key = None \/ api_key = Some "" ->
        h !! "Authorization" = given !! "Authorization").
Proof.
  intros Hrun given.
  assert (match extra with
          | Some d => if decide (d = ∅) then ∅ else d
          | None => ∅
          end = given) as Hgiven.
  { unfold given. destruct extra as [d|]; [|done]. simpl. by case_decide. }
  unfold generate_headers, bind, ret in Hrun. rewrite Hgiven in Hrun.
  destruct client_ip as [[|c ip]|]; simpl in Hrun;
    [| destruct (encrypt_client_ip (String c ip) w) as [[enc|e] w1] eqn:Henc;
       [|done] |].
  all: destruct api_key as [[|c' k]|]; simpl in Hrun; injection Hrun as <- <-.
  all: (split; [|split; [|split; [|split]]]).
  all: try (intros k0 Hk1 Hk2; by rewrite ?lookup_insert_ne).
  all: try (intros [?|?]; simplify_eq; by rewrite ?lookup_insert_ne).
  all: try (intros k0 [= <-] Hne; try done; by rewrite lookup_insert_eq).
  all: intros ip' [= <-] Hne; try done; exists enc; split; [done|];
       by rewrite ?(lookup_insert_ne _ "Authorization"), ?lookup_insert_eq.
Qed.

(** ** Properties of the fan-out *)

Lemma run_tasks_length {A} (tasks : list (IO A)) w :
  length (fst (run_tasks tasks w)) = length tasks.
Proof.
  revert w. induction tasks as [|t tasks IH]; intros w; [done|].
  simpl. destruct (t w) as [r w1]. specialize (IH w1).
  destruct (run_tasks tasks w1) as [rs w2]. simpl in *. by rewrite IH.
Qed.

(** Tasks that only post-process the outcome of another coroutine issue the
    same calls and see the same answers. *)
Lemma run_tasks_post {X A B} (m : X -> IO A) (t : X -> IO B)
    (f : result A -> result B) (xs : list X) w :
  (forall x w0, t x w0 = (f (fst (m x w0)), snd (m x w0))) ->
  run_tasks (map t xs) w =
    (map f (fst (run_tasks (map m xs) w)), snd (run_tasks (map m xs) w)).
Proof.
  intros Ht. revert w. induction xs as [|x xs IH]; intros w; [done|].
  simpl. rewrite Ht. destruct (m x w) as [r w1]. simpl.
  rewrite IH. by destruct (run_tasks (map m xs) w1) as [rs w2].
Qed.

Lemma future_results_done {A} (children : list (option (result A)))
    (outcomes : list (result A)) :
  Forall2 (fun c o => c = Some o /\ is_ok o = true) children outcomes ->
  exists vs, future_results children = Ok vs /\ outcomes = map Ok vs.
Proof.
  induction 1 as [|c o children outcomes [-> Hok] _ (vs & Hvs & ->)].
  - by exists [].
  - destruct o as [a|e]; [|done]. exists (a :: vs). simpl. by rewrite Hvs.
Qed.

(** The heart of [gather]: as long as the children that are done are the
    ones that finished well, and every pending child is still to come in the
    completion order, the outer future resolves either to the values of all
    tasks, by position, or to the exception of one of them. *)
Lemma gather_callbacks_spec {A} (outcomes : list (result A)) order :
  forall children,
    length children = length outcomes ->
    (forall i r, children !! i = Some (Some r) ->
                 outcomes !! i = Some r /\ is_ok r = true) ->
    (forall i, children !! i = Some None -> i ∈ order) ->
    match gather_callbacks outcomes children order with
    | Ok vs => outcomes = map Ok vs
    | Raise e => exists i, outcomes !! i = Some (Raise e)
    end.
Proof.
  induction order as [|i order IH]; intros children Hlen Hdone Hpending.
  - simpl.
    destruct (future_results_done children outcomes) as (vs & -> & ->); [|done].
    apply Forall2_same_length_lookup. split; [done|].
    intros j c o Hc Ho. destruct c as [r|].
    + destruct (Hdone j r Hc) as [Ho' Hok]. split; congruence.
    + by apply Hpending, elem_of_nil in Hc.
  - simpl.
    destruct (children !! i) as [[r|]|] eqn:Hci.
    + apply IH; [done..|]. intros j Hj.
      specialize (Hpending j Hj). apply elem_of_cons in Hpending as [->|]; [|done].
      congruence.
    + destruct (outcomes !! i) as [[a|e]|] eqn:Hoi.
      * apply IH.
        -- by rewrite length_insert.
        -- intros j r Hj. destruct (decide (i = j)) as [<-|Hne].
           ++ rewrite list_lookup_insert_eq in Hj
                by (by apply lookup_lt_Some in Hci).
              by injection Hj as <-.
           ++ rewrite list_lookup_insert_ne in Hj by done. by apply Hdone.
        -- intros j Hj. destruct (decide (i = j)) as [<-|Hne].
           ++ rewrite list_lookup_insert_eq in Hj
                by (by apply lookup_lt_Some in Hci).
              done.
           ++ rewrite list_lookup_insert_ne in Hj by done.
              specialize (Hpending j Hj).
              apply elem_of_cons in Hpending as [->|]; done.
      * by exists i.
      * apply lookup_lt_Some in Hci. apply lookup_ge_None in Hoi. lia.
    + apply IH; [done..|]. intros j Hj.
      specialize (Hpending j Hj). apply elem_of_cons in Hpending as [->|]; [|done].
      congruence.
Qed.

(** [gather], for every completion order: the calls are those of the tasks,
    in task order; the result is the list of all values, position by
    position, or the exception of a task that failed. *)
Lemma gather_spec {A} (sched : list nat) (tasks : list (IO A)) w :
  snd (gather sched tasks w) = snd (run_tasks tasks w)
  /\ match fst (gather sched tasks w) with
     | Ok vs => fst (run_tasks tasks w) = map Ok vs
     | Raise e => exists i, fst (run_tasks tasks w) !! i = Some (Raise e)
     end.
Proof.
  unfold gather. pose proof (run_tasks_length tasks w) as Hlen.
  destruct (run_tasks tasks w) as [outcomes w']. simpl in *.
  split; [done|]. apply gather_callbacks_spec.
  - by rewrite length_replicate.
  - intros i r Hi. apply lookup_replicate in Hi as [? _]. done.
  - intros i Hi. apply lookup_replicate in Hi as [_ Hi].
    apply elem_of_app. right. apply elem_of_seq. lia.
Qed.

(** When every task finishes well, [gather] returns their values in task
    order, whatever the completion order. *)
Lemma gather_all_ok {A} (sched : list nat) (tasks : list (IO A)) w vs :
  fst (run_tasks tasks w) = map Ok vs ->
  fst (gather sched tasks w) = Ok vs.
Proof.
  intros Hall. destruct (gather_spec sched tasks w) as [_ Hres].
  destruct (fst (gather sched tasks w)) as [vs'|e].
  - rewrite Hall in Hres. f_equal. symmetry.
    revert Hres. generalize vs'. clear. induction vs as [|v vs IH]; intros [|v' vs']; try done.
    simpl. intros [= -> Hrest]. f_equal. by apply IH.
  - destruct Hres as [i Hi]. rewrite Hall, list_lookup_fmap in Hi.
    by destruct (vs !! i).
Qed.

(** ** Properties of api.py *)

Arguments search_outcome : simpl never.
Arguments fetch_outcome : simpl never.

Lemma search_outcome_ok names a v :
  search_outcome names a = Ok v <->
  exists resp, a = Ok resp /\ finds_nothing resp = false
               /\ format_search_results resp = Ok v.
Proof.
  unfold search_outcome, finds_nothing. split.
  - destruct a as [resp|e]; [|done]. simpl.
    destruct (Json.get resp "results") as [o|e] eqn:Hget; [|done]. simpl.
    destruct (opt_truthy o) eqn:Ho; simpl; [|done]. intros Hv. exists resp.
    by rewrite Hget, Ho.
  - intros (resp & -> & Hnone & Hv). simpl.
    destruct (Json.get resp "results") as [o|e] eqn:Hget; simpl.
    + apply negb_false_iff in Hnone. by rewrite Hnone.
    + destruct resp; try done.
Qed.

Lemma search_outcome_nothing names resp :
  finds_nothing resp = true ->
  search_outcome names (Ok resp) = Raise (names_not_found names).
Proof.
  unfold search_outcome, finds_nothing. simpl.
  destruct (Json.get resp "results") as [o|e]; [|done]. simpl.
  by intros ->.
Qed.

Lemma _search_run {T} `{BaseModel T} (request : T) names name w :
  getattr_str_list request "library_names" = Ok names ->
  _search request name w =
    (search_outcome names
       (fst (search_libraries name None (Some (api_key settings)) w)),
     snd (search_libraries name None (Some (api_key settings)) w)).
Proof.
  intros Hnames. unfold _search, bind, search_outcome.
  destruct (search_libraries name None _ w) as [[resp|e] w1]; [|done]. simpl.
  unfold lift. destruct (Json.get resp "results") as [o|e]; [|done]. simpl.
  destruct (opt_truthy o); simpl; [done|]. by rewrite Hnames.
Qed.

(** [resolve_multiple_library_ids], for every completion order: the result
    is the list of the formatted answers, position by position, or the
    exception of one member. *)
Lemma resolve_multiple_library_ids_run {T} `{BaseModel T}
    sched (request : T) names w :
  getattr_str_list request "library_names" = Ok names ->
  let answers := fst (run_tasks (search_calls names) w) in
  match fst (resolve_multiple_library_ids_on sched request w) with
  | Ok (mk_ResolveMultipleLibraryIDsResponse results) =>
      map (search_outcome names) answers = map Ok results
  | Raise e => exists i, map (search_outcome names) answers !! i = Some (Raise e)
  end.
Proof.
  intros Hnames answers. unfold resolve_multiple_library_ids_on, bind, lift.
  rewrite Hnames.
  destruct (gather_spec sched (map (_search request) names) w) as [_ Hres].
  rewrite (run_tasks_post
             (fun name => search_libraries name None (Some (api_key settings)))
             (_search request) (search_outcome names)) in Hres
    by (intros; by apply _search_run).
  simpl in Hres. fold (search_calls names) in Hres. fold answers in Hres.
  destruct (gather sched (map (_search request) names) w) as [[vs|e] w1]; done.
Qed.

Lemma map_Ok_inj {A} (l k : list A) :
  map (@Ok A) l = map Ok k -> l = k.
Proof.
  revert k. induction l as [|x l IH]; intros [|y k]; try done.
  simpl. intros [= -> Hrest]. f_equal. by apply IH.
Qed.

Lemma map_Ok_no_Raise {A} (l : list A) i e :
  map (@Ok A) l !! i <> Some (Raise e).
Proof.
  revert i. induction l as [|x l IH]; intros [|i]; simpl; done.
Qed.

Lemma map_outcome_Forall2 {A B} (f : A -> result B) (l : list A) (vs : list B) :
  map f l = map Ok vs <-> Forall2 (fun a v => f a = Ok v) l vs.
Proof.
  revert vs. induction l as [|a l IH]; intros [|v vs]; simpl; split;
    try done; try (by inversion 1).
  - intros [= Ha Hrest]. constructor; [done|]. by apply IH.
  - inversion 1 as [|???? Ha Hrest]; subst. f_equal; [done|]. by apply IH.
Qed.

(** X14.  The order of the results of [resolve_multiple_library_ids]: the
    batch is answered with a list exactly when every member finds something
    that can be formatted, and then the list has one entry per name, the
    entry at each position being the formatted answer to the name at that
    position, whatever the completion order. *)
Lemma resolve_multiple_library_ids_order sched library_names w results :
  fst (resolve_multiple_library_ids sched
         (mk_ResolveMultipleLibraryIDsRequest library_names) w)
    = Ok (mk_ResolveMultipleLibraryIDsResponse results)
  <-> Forall2
        (fun a v => exists resp, a = Ok resp /\ finds_nothing resp = false
                                 /\ format_search_results resp = Ok v)
        (fst (run_tasks (search_calls library_names) w)) results.
Proof.
  pose proof (resolve_multiple_library_ids_run sched
                (mk_ResolveMultipleLibraryIDsRequest library_names)
                library_names w eq_refl) as Hrun.
  simpl in Hrun. unfold resolve_multiple_library_ids.
  set (answers := fst (run_tasks (search_calls library_names) w)) in *.
  assert (map (search_outcome library_names) answers = map Ok results
          <-> Forall2
                (fun a v => exists resp, a = Ok resp /\ finds_nothing resp = false
                                         /\ format_search_results resp = Ok v)
                answers results) as Hiff.
  { rewrite map_outcome_Forall2.
    split; intros Hall; (eapply Forall2_impl; [exact Hall|]);
      intros a v; by rewrite search_outcome_ok. }
  rewrite <- Hiff.
  destruct (fst (resolve_multiple_library_ids_on _ _ w)) as [[vs]|e].
  - split.
    + by intros [= ->].
    + intros Hall. rewrite Hall in Hrun. apply map_Ok_inj in Hrun. by subst.
  - split; [done|]. intros Hall. destruct Hrun as [i Hi].
    rewrite Hall in Hi. by apply map_Ok_no_Raise in Hi.
Qed.

Lemma format_search_results_not_dict resp e :
  Json.get resp "results" = Raise e ->
  is_ok (format_search_results resp) = false.
Proof. by destruct resp. Qed.

(** C2, as the code has it.  If a member of the batch finds nothing, then
    [resolve_multiple_library_ids] raises, for every completion order: no
    list is returned, not even for the names that were resolved.  When no
    member fails for another reason (every answer either finds nothing or
    can be formatted), the exception is [LibraryNotFoundException] with
    status 404 and the message that ends with the whole list of names. *)
Theorem resolve_multiple_library_ids_fail_fast sched library_names w :
  let answers := fst (run_tasks (search_calls library_names) w) in
  let outcome :=
    fst (resolve_multiple_library_ids sched
           (mk_ResolveMultipleLibraryIDsRequest library_names) w) in
  (exists i resp, answers !! i = Some (Ok resp) /\ finds_nothing resp = true) ->
  is_ok outcome = false
  /\ ((forall i a, answers !! i = Some a ->
         exists resp, a = Ok resp
                      /\ (finds_nothing resp = true
                          \/ is_ok (format_search_results resp) = true)) ->
      outcome = Raise (names_not_found library_names)).
Proof.
  intros answers outcome (i & resp & Hi & Hnone).
  pose proof (resolve_multiple_library_ids_run sched
                (mk_ResolveMultipleLibraryIDsRequest library_names)
                library_names w eq_refl) as Hrun.
  simpl in Hrun. fold answers in Hrun.
  unfold outcome, resolve_multiple_library_ids.
  destruct (fst (resolve_multiple_library_ids_on _ _ w)) as [[vs]|e].
  - exfalso.
    assert (map (search_outcome library_names) answers !! i
            = Some (Raise (names_not_found library_names))) as Hraise.
    { rewrite list_lookup_fmap, Hi. simpl. by rewrite search_outcome_nothing. }
    rewrite Hrun in Hraise. by apply map_Ok_no_Raise in Hraise.
  - split; [done|]. intros Hothers. f_equal.
    destruct Hrun as [j Hj]. rewrite list_lookup_fmap in Hj.
    destruct (answers !! j) as [a|] eqn:Haj; [|done].
    destruct (Hothers j a Haj) as (resp' & -> & [Hn|Hf]).
    + simpl in Hj. rewrite search_outcome_nothing in Hj by done. congruence.
    + injection Hj as Hj.
      destruct (finds_nothing resp') eqn:Hn.
      * rewrite search_outcome_nothing in Hj by done. congruence.
      * destruct (format_search_results resp') as [v|] eqn:Hv; [|done].
        assert (search_outcome library_names (Ok resp') = Ok v) as Hok.
        { apply search_outcome_ok. by exists resp'. }
        congruence.
Qed.

(** The handlers pass no client address, so a fetch call always reaches
    the catalog and returns. *)
Lemma fetch_call_ok item w :
  exists docs, fst (fetch_call item w) = Ok docs.
Proof.
  unfold fetch_call.
  rewrite (fetch_library_docs_run _ _ _ _ _ _ _ _ (generate_headers_no_ip _ _ w)).
  simpl. by eexists.
Qed.

Lemma _fetch_run lib_id t top w :
  _fetch lib_id t top w =
    (fetch_outcome lib_id top (fst (fetch_call (lib_id, (t, top)) w)),
     snd (fetch_call (lib_id, (t, top)) w)).
Proof.
  unfold _fetch, bind, fetch_outcome, fetch_call, placeholder. simpl.
  by destruct (fetch_library_docs lib_id t top None _ w) as [[docs|e] w1].
Qed.

Lemma run_tasks_post_each {X A B} (m : X -> IO A) (t : X -> IO B)
    (f : X -> result A -> result B) (xs : list X) w :
  (forall x w0, t x w0 = (f x (fst (m x w0)), snd (m x w0))) ->
  run_tasks (map t xs) w =
    (zip_with f xs (fst (run_tasks (map m xs) w)),
     snd (run_tasks (map m xs) w)).
Proof.
  intros Ht. revert w. induction xs as [|x xs IH]; intros w; [done|].
  simpl. rewrite Ht. destruct (m x w) as [r w1]. simpl.
  rewrite IH. by destruct (run_tasks (map m xs) w1) as [rs w2].
Qed.

Lemma run_fetch_calls_ok items w :
  Forall (fun a => is_ok a = true) (fst (run_tasks (map fetch_call items) w)).
Proof.
  revert w. induction items as [|item items IH]; intros w; [constructor|].
  simpl. destruct (fetch_call_ok item w) as [docs Hdocs].
  destruct (fetch_call item w) as [r w1]. simpl in Hdocs. subst r.
  specialize (IH w1). destruct (run_tasks (map fetch_call items) w1) as [rs w2].
  by constructor.
Qed.

(** The coroutines the list comprehension builds for an object that has the
    three lists, of one length. *)
Lemma fetch_tasks_aligned ids tokens topics m :
  forall k,
    length ids = length tokens -> length tokens = length topics ->
    (k + m = length ids)%nat ->
    fetch_tasks (mk_AlignedBatch ids tokens topics) (seq k m) =
      Ok (map (fun item => _fetch item.1 item.2.1 item.2.2)
              (drop k (zip ids (zip tokens topics)))).
Proof.
  induction m as [|m IH]; intros k Hl1 Hl2 Hk.
  - simpl. rewrite drop_ge; [done|].
    rewrite !length_zip_with. lia.
  - destruct (lookup_lt_is_Some_2 ids k) as [x Hx]; [lia|].
    destruct (lookup_lt_is_Some_2 tokens k) as [t Ht]; [lia|].
    destruct (lookup_lt_is_Some_2 topics k) as [top Htop]; [lia|].
    assert (zip ids (zip tokens topics) !! k = Some (x, (t, top))) as Hitem.
    { rewrite !lookup_zip_with, Hx, Ht, Htop. done. }
    rewrite (drop_S _ _ _ Hitem).
    cbn [seq fetch_tasks]. unfold getattr_str_list, getattr_int_list, getattr.
    simpl. unfold index. rewrite Hx, Ht, Htop. simpl.
    rewrite IH by (done || lia). done.
Qed.

(** For an object that has the attributes the handler reads: lists of
    different lengths are rejected with status 400 before any call. *)
Lemma get_multiple_library_docs_on_mismatch sched ids tokens topics w :
  ~ (length ids = length tokens /\ length tokens = length topics) ->
  get_multiple_library_docs_on sched (mk_AlignedBatch ids tokens topics) w =
    (Raise (HTTPException 400
              "Lengths of library_ids, tokens, and topics must match."), w).
Proof.
  intros Hne. unfold get_multiple_library_docs_on, bind, lift, ret. simpl.
  destruct (decide (length ids = length tokens)) as [H1|H1]; simpl; [|done].
  rewrite bool_decide_eq_false_2; [done|]. intros H2. by apply Hne.
Qed.

(** For such an object with lists of one length: the handler returns one
    text per position, the documentation of the library at that position or,
    where the fetch found nothing or an empty body, the placeholder that
    names the id and the topic as they were passed; the completion order
    does not matter. *)
Lemma get_multiple_library_docs_on_aligned sched ids tokens topics w :
  length ids = length tokens -> length tokens = length topics ->
  let items := zip ids (zip tokens topics) in
  let answers := fst (run_tasks (map fetch_call items) w) in
  exists results,
    get_multiple_library_docs_on sched (mk_AlignedBatch ids tokens topics) w =
      (Ok (mk_GetMultipleLibraryDocsResponse results),
       snd (run_tasks (map fetch_call items) w))
    /\ length results = length ids
    /\ map Ok results =
         zip_with (fun item a => fetch_outcome item.1 item.2.2 a) items answers.
Proof.
  intros Hl1 Hl2 items answers.
  assert (exists results,
            zip_with (fun item a => fetch_outcome item.1 item.2.2 a) items answers
            = map Ok results) as [results Hresults].
  { pose proof (run_fetch_calls_ok items w) as Hok. fold answers in Hok.
    clearbody answers items. clear -Hok. revert items.
    induction Hok as [|a answers Ha _ IH]; intros items.
    - exists []. by destruct items.
    - destruct items as [|item items]; [by exists []|].
      destruct (IH items) as [vs Hvs]. destruct a as [docs|]; [|done].
      eexists (_ :: vs). simpl. rewrite Hvs. reflexivity. }
  exists results.
  assert (run_tasks (map (fun item => _fetch item.1 item.2.1 item.2.2) items) w
          = (map Ok results, snd (run_tasks (map fetch_call items) w))) as Hrun.
  { rewrite (run_tasks_post_each fetch_call _
               (fun item a => fetch_outcome item.1 item.2.2 a)).
    - fold answers. by rewrite Hresults.
    - intros [lib_id [t top]] w0. apply _fetch_run. }
  split; [|split; [|done]].
  - unfold get_multiple_library_docs_on, bind, lift, ret. simpl.
    rewrite decide_True by done. simpl.
    rewrite bool_decide_eq_true_2 by done. simpl.
    rewrite (fetch_tasks_aligned ids tokens topics (length ids) 0) by done.
    rewrite drop_0. fold items.
    pose proof (gather_spec sched
                  (map (fun item => _fetch item.1 item.2.1 item.2.2) items) w)
      as [Hw Hres].
    pose proof (gather_all_ok sched
                  (map (fun item => _fetch item.1 item.2.1 item.2.2) items) w results)
      as Hall.
    rewrite Hrun in Hw, Hall. simpl in Hw, Hall. specialize (Hall eq_refl).
    destruct (gather sched _ w) as [r w1]. simpl in *. by subst.
  - apply (f_equal length) in Hresults.
    rewrite length_map, length_zip_with in Hresults. unfold answers in Hresults.
    rewrite run_tasks_length, length_map in Hresults. unfold items in Hresults.
    rewrite !length_zip_with in Hresults. lia.
Qed.

(** The model class the route is annotated with has no attribute
    [library_ids]: the first attribute read of the handler raises, for every
    request of that class, before any length is compared and before any
    call. *)
Lemma get_multiple_library_docs_raises sched request w :
  get_multiple_library_docs sched request w = (Raise AttributeError, w).
Proof. by destruct request. Qed.

(** A status 200 answer with an empty body: [fetch_library_docs] returns the
    empty text, which is no sentinel, and [get_library_docs] raises the
    not-found exception all the same. *)
Lemma get_library_docs_empty_body library_id tokens topic w :
  let key := Some (api_key settings) in
  fst (fetch_library_docs library_id tokens topic None key w) = Ok (Some "") ->
  fst (get_library_docs (mk_GetLibraryDocsRequest library_id tokens topic) w)
    = Raise DocumentationNotFoundException_default.
Proof.
  intros key Hdocs. unfold get_library_docs, bind, lift. simpl.
  fold key. destruct (fetch_library_docs _ _ _ None key w) as [r w1].
  simpl in Hdocs. by subst r.
Qed.

(** ** Further properties of [format_search_results] *)

Lemma append_assoc_string (a b c : string) :
  (a +:+ b) +:+ c = a +:+ (b +:+ c).
Proof.
  induction a as [|x a IH]; [done|].
  change (String x ((a +:+ b) +:+ c) = String x (a +:+ (b +:+ c))).
  by rewrite IH.
Qed.

Lemma join_app sep (l1 l2 : list string) :
  l1 <> [] -> l2 <> [] ->
  Py.join sep (l1 ++ l2) = Py.join sep l1 +:+ sep +:+ Py.join sep l2.
Proof.
  intros H1 H2. induction l1 as [|x l1 IH]; [done|].
  destruct l1 as [|y l1].
  - simpl. by destruct l2.
  - change (Py.join sep ((x :: y :: l1) ++ l2))
      with (x +:+ sep +:+ Py.join sep ((y :: l1) ++ l2)).
    rewrite IH by done.
    change (Py.join sep (x :: y :: l1)) with (x +:+ sep +:+ Py.join sep (y :: l1)).
    by rewrite !append_assoc_string.
Qed.

Lemma all_str_ok (l : list json) :
  is_ok (Json.all_str l) = forallb is_str l.
Proof.
  induction l as [|v l IH]; [done|].
  destruct v; simpl; try done. rewrite <- IH. by destruct (Json.all_str l).
Qed.

Lemma all_str_keys (d : list (string * json)) :
  is_ok (Json.all_str (map (fun kv => JStr (fst kv)) d)) = true.
Proof.
  induction d as [|kv d IH]; [done|]. simpl. by destruct (Json.all_str _).
Qed.

Lemma all_str_chars (s : string) :
  is_ok (Json.all_str (Json.chars s)) = true.
Proof.
  induction s as [|c s IH]; [done|]. simpl. by destruct (Json.all_str _).
Qed.

Lemma format_hit_ok (r : json) :
  is_ok (format_hit r) = hit_formattable r.
Proof.
  destruct r as [| | | | |l|f]; try done.
  unfold format_hit, hit_formattable, snippets_comparable, versions_joinable.
  simpl.
  destruct (Json.assoc "totalSnippets" f) as [sn|]; simpl.
  - destruct sn as [|b|n|x|t|l|d]; simpl; try done.
    all: destruct (Json.assoc "versions" f) as [v|]; simpl; [|done].
    all: destruct v as [|b'|n'|x'|t'|l'|d']; simpl; try done.
    all: try (by destruct b').
    all: try (by destruct (negb (n' =? 0))).
    all: try (by destruct (negb (PrimFloat.eqb x' 0))).
    all: try (destruct t'; [done|]; unfold Json.join; simpl;
              pose proof (all_str_chars t') as Hc;
              by destruct (Json.all_str (Json.chars t'))).
    all: try (destruct l'; [done|]; unfold Json.join; simpl;
              rewrite <- all_str_ok; simpl;
              by destruct j; simpl; try done; destruct (Json.all_str l')).
    all: try (destruct d' as [|kv d']; [done|]; unfold Json.join; simpl;
              pose proof (all_str_keys d') as Hk;
              by destruct (Json.all_str (map _ d'))).
  - destruct (Json.assoc "versions" f) as [v|]; simpl; [|done].
    destruct v as [|b'|n'|x'|t'|l'|d']; simpl; try done.
    + by destruct b'.
    + by destruct (negb (n' =? 0)).
    + by destruct (negb (PrimFloat.eqb x' 0)).
    + destruct t'; [done|]. unfold Json.join. simpl.
      pose proof (all_str_chars t') as Hc.
      by destruct (Json.all_str (Json.chars t')).
    + destruct l'; [done|]. unfold Json.join. simpl.
      rewrite <- all_str_ok. simpl.
      by destruct j; simpl; try done; destruct (Json.all_str l').
    + destruct d' as [|kv d']; [done|]. unfold Json.join. simpl.
      pose proof (all_str_keys d') as Hk.
      by destruct (Json.all_str (map _ d')).
Qed.

Lemma format_hits_ok (hits : list json) :
  is_ok (format_hits hits) = forallb hit_formattable hits.
Proof.
  induction hits as [|r hits IH]; [done|].
  simpl. rewrite <- format_hit_ok, <- IH.
  destruct (format_hit r); [|done]. simpl. by destruct (format_hits hits).
Qed.

(** X1.  An answer whose ["results"] entry is missing, or is an empty list,
    string or dict, formats to the empty text; one whose entry is [null], a
    boolean or a number makes [format_search_results] raise [TypeError]. *)
Theorem format_search_results_no_hits (d : list (string * json)) :
  match Json.assoc "results" d with
  | None => format_search_results (JDict d) = Ok ""
  | Some (JList l) =>
      match l with
      | [] => format_search_results (JDict d) = Ok ""
      | _ => True
      end
  | Some (JStr t) =>
      match t with
      | EmptyString => format_search_results (JDict d) = Ok ""
      | _ => True
      end
  | Some (JDict f) =>
      match f with
      | [] => format_search_results (JDict d) = Ok ""
      | _ => True
      end
  | Some JNull | Some (JBool _) | Some (JInt _) | Some (JFloat _) =>
      format_search_results (JDict d) = Raise TypeError
  end.
Proof.
  unfold format_search_results. simpl.
  destruct (Json.assoc "results" d) as [[| | | |[|]|[|]|[|]]|]; done.
Qed.

(** X2.  For an answer whose ["results"] entry is a list,
    [format_search_results] returns a text exactly when every hit is a dict
    whose ["totalSnippets"], if present, is a number or a boolean and whose
    ["versions"], if present, is a list of strings, a string, a dict or a
    falsy scalar; for any other list it raises. *)
Theorem format_search_results_succeeds_iff (d : list (string * json)) hits :
  Json.assoc "results" d = Some (JList hits) ->
  is_ok (format_search_results (JDict d)) = true
  <-> forallb hit_formattable hits = true.
Proof.
  intros Hres. unfold format_search_results. simpl. rewrite Hres. simpl.
  rewrite <- format_hits_ok. by destruct (format_hits hits).
Qed.

Lemma format_hits_app hits1 hits2 blocks1 blocks2 :
  format_hits hits1 = Ok blocks1 -> format_hits hits2 = Ok blocks2 ->
  format_hits (hits1 ++ hits2) = Ok (blocks1 ++ blocks2)%list.
Proof.
  revert blocks1. induction hits1 as [|r hits1 IH]; intros blocks1 H1 H2.
  - simpl in H1. injection H1 as <-. done.
  - simpl in *. destruct (format_hit r) as [b|]; [|done]. simpl in *.
    destruct (format_hits hits1) as [bs|] eqn:Hbs; [|done]. simpl in *.
    injection H1 as <-. by rewrite (IH bs eq_refl H2).
Qed.

Lemma format_hits_length hits blocks :
  format_hits hits = Ok blocks -> length blocks = length hits.
Proof.
  revert blocks. induction hits as [|r hits IH]; intros blocks Hb.
  - simpl in Hb. by injection Hb as <-.
  - simpl in Hb. destruct (format_hit r) as [b|]; [|done]. simpl in Hb.
    destruct (format_hits hits) as [bs|]; [|done]. simpl in Hb.
    injection Hb as <-. simpl. by rewrite (IH bs eq_refl).
Qed.

(** X3.  Formatting composes: the text for two non-empty lists of hits, one
    after the other, is the text for the first, the separator line, and the
    text for the second. *)
Theorem format_search_results_app
    (d1 d2 d : list (string * json)) hits1 hits2 s1 s2 :
  Json.assoc "results" d1 = Some (JList hits1) ->
  Json.assoc "results" d2 = Some (JList hits2) ->
  Json.assoc "results" d = Some (JList (hits1 ++ hits2)) ->
  hits1 <> [] -> hits2 <> [] ->
  format_search_results (JDict d1) = Ok s1 ->
  format_search_results (JDict d2) = Ok s2 ->
  format_search_results (JDict d) = Ok (s1 +:+ block_separator +:+ s2).
Proof.
  intros Hd1 Hd2 Hd Hne1 Hne2. unfold format_search_results. simpl.
  rewrite Hd1, Hd2, Hd. simpl.
  destruct (format_hits hits1) as [b1|] eqn:Hb1; [|done].
  destruct (format_hits hits2) as [b2|] eqn:Hb2; [|done]. simpl.
  intros [= <-] [= <-]. rewrite (format_hits_app _ _ _ _ Hb1 Hb2). simpl.
  f_equal. apply join_app.
  - intros ->. apply format_hits_length in Hb1. by destruct hits1.
  - intros ->. apply format_hits_length in Hb2. by destruct hits2.
Qed.

(** X4.  A hit whose count of snippets is missing or not positive, whose
    trust score is missing or falsy and whose versions are missing or empty
    is printed as exactly three lines, title, id and description, each empty
    after its label when the key is missing. *)
Theorem format_search_results_bare_hit (d f : list (string * json)) :
  Json.assoc "results" d = Some (JList [JDict f]) ->
  Json.gt_zero (default (JInt (-1)) (Json.assoc "totalSnippets" f)) = Ok false ->
  opt_truthy (Json.assoc "trustScore" f) = false ->
  opt_truthy (Json.assoc "versions" f) = false ->
  format_search_results (JDict d) =
    Ok ("- Title: "
          +:+ Json.str float_repr (default (JStr "") (Json.assoc "title" f))
          +:+ newline +:+ "- ID: "
          +:+ Json.str float_repr (default (JStr "") (Json.assoc "id" f))
          +:+ newline +:+ "- Description: "
          +:+ Json.str float_repr (default (JStr "") (Json.assoc "description" f))).
Proof.
  intros Hres Hsn Htrust Hver. unfold format_search_results. simpl.
  rewrite Hres. simpl. unfold format_hit. simpl.
  destruct (Json.assoc "totalSnippets" f) as [sn|]; simpl in Hsn |- *;
    rewrite ?Hsn; simpl.
  all: destruct (Json.assoc "trustScore" f) as [tr|]; simpl in Htrust |- *;
    rewrite ?Htrust.
  all: destruct (Json.assoc "versions" f) as [ve|]; simpl in Hver |- *;
    rewrite ?Hver; simpl.
  all: by destruct (Json.assoc "title" f), (Json.assoc "id" f),
            (Json.assoc "description" f).
Qed.

(** ** Further properties of the single-item routes *)

Lemma search_libraries_handler name w :
  search_libraries name None (Some (api_key settings)) w =
    let req := search_request name in
    let r := upstream (calls w) req in
    (if decide (status_code r = 200) then response_json r
     else Ok (JDict [("error", JStr (Py.str_of_int (status_code r)));
                     ("results", JList [])]),
     {| calls := (calls w ++ [req])%list; draws := draws w |}).
Proof.
  unfold search_libraries, bind. rewrite generate_headers_no_ip. simpl.
  unfold client_get, search_request, handler_headers, lift, ret. simpl.
  by destruct (decide _).
Qed.

Lemma source_header_not_empty :
  (if decide (({["X-Context7-Source" := "mcp-server"]} : gmap string string) = ∅)
   then (∅ : gmap string string)
   else {["X-Context7-Source" := "mcp-server"]})
  = {["X-Context7-Source" := "mcp-server"]}.
Proof. destruct (decide _) as [Heq|]; [by rewrite Heq|done]. Qed.

Lemma fetch_library_docs_handler library_id tokens topic w :
  fetch_library_docs library_id tokens topic None (Some (api_key settings)) w =
    let req := fetch_request library_id tokens topic in
    let r := upstream (calls w) req in
    (Ok (if decide (status_code r = 200)
         then if decide (text r = "No content available") then None
              else if decide (text r = "No context data available") then None
              else Some (text r)
         else None),
     {| calls := (calls w ++ [req])%list; draws := draws w |}).
Proof.
  rewrite (fetch_library_docs_run _ _ _ _ _ _ _ _ (generate_headers_no_ip _ _ w)).
  unfold fetch_request, handler_headers. simpl.
  rewrite source_header_not_empty. done.
Qed.

(** X5.  [get_library_docs] issues exactly one call, the fetch for the
    requested id with the bearer line and the source line and without the
    identity header, and draws no randomness.  It returns the body when the
    status is 200 and the body is neither empty nor a sentinel; in every
    other case, a failing status included, it raises
    [DocumentationNotFoundException] with status 404, and it raises nothing
    else. *)
Theorem get_library_docs_outcome library_id tokens topic w :
  let req := fetch_request library_id tokens topic in
  let r := upstream (calls w) req in
  get_library_docs (mk_GetLibraryDocsRequest library_id tokens topic) w =
    (if decide (status_code r = 200 /\ text r <> ""
                /\ text r <> "No content available"
                /\ text r <> "No context data available")
     then Ok (mk_GetLibraryDocsResponse (text r))
     else Raise (DocumentationNotFoundException 404 "Documentation not found."),
     {| calls := (calls w ++ [req])%list; draws := draws w |})
  /\ headers req !! "mcp-client-ip" = None
  /\ headers req !! "X-Context7-Source" = Some "mcp-server".
Proof.
  intros req r. split; [|split].
  - unfold get_library_docs, bind, lift. simpl.
    rewrite fetch_library_docs_handler. simpl. fold req. fold r.
    destruct (decide (status_code r = 200)) as [Hs|Hs].
    + destruct (decide (text r = "No content available")) as [H1|H1].
      { rewrite decide_False; [done|]. intros (_ & _ & Hn & _). done. }
      destruct (decide (text r = "No context data available")) as [H2|H2].
      { rewrite decide_False; [done|]. intros (_ & _ & _ & Hn). done. }
      destruct (text r) as [|c t] eqn:Ht.
      * rewrite decide_False; [done|]. intros (_ & Hn & _). done.
      * rewrite decide_True; done.
    + rewrite decide_False; [done|]. intros (Hn & _). done.
  - unfold req, fetch_request, handler_headers. simpl.
    destruct (Py.str_truthy _); by rewrite ?lookup_insert_ne.
  - unfold req, fetch_request, handler_headers. simpl.
    destruct (Py.str_truthy _); rewrite ?lookup_insert_ne by done;
      by rewrite lookup_singleton_eq.
Qed.

(** X6.  [resolve_library_id] issues exactly one call, the search for the
    name with the bearer line and without the identity header, and draws no
    randomness.  A status other than 200 is reported as
    [LibraryNotFoundException] with status 404, like an answer without
    results; a status 200 body that is not JSON raises the decoding error;
    any other answer is formatted. *)
Theorem resolve_library_id_outcome library_name w :
  let req := search_request library_name in
  let r := upstream (calls w) req in
  resolve_library_id (mk_ResolveLibraryIDRequest library_name) w =
    (if decide (status_code r = 200)
     then match json_loads (text r) with
          | None => Raise JSONDecodeError
          | Some resp =>
              if finds_nothing resp
              then Raise (LibraryNotFoundException 404 "No matching libraries found.")
              else match format_search_results resp with
                   | Ok text => Ok (mk_ResolveLibraryIDResponse text)
                   | Raise e => Raise e
                   end
          end
     else Raise (LibraryNotFoundException 404 "No matching libraries found."),
     {| calls := (calls w ++ [req])%list; draws := draws w |})
  /\ headers req !! "mcp-client-ip" = None.
Proof.
  intros req r. split.
  - unfold resolve_library_id, bind, lift. simpl.
    rewrite search_libraries_handler. simpl. fold req. fold r.
    destruct (decide (status_code r = 200)) as [Hs|Hs]; [|done].
    unfold response_json. destruct (json_loads (text r)) as [resp|]; [|done].
    unfold finds_nothing.
    destruct (Json.get resp "results") as [o|e] eqn:Hget; simpl.
    + destruct (opt_truthy o); simpl; [|done].
      by destruct (format_search_results resp).
    + destruct resp; try done; simpl in Hget; by injection Hget as <-.
  - unfold req, search_request, handler_headers. simpl.
    destruct (Py.str_truthy _); by rewrite ?lookup_insert_ne.
Qed.

Lemma resolve_library_id_ok library_name w text :
  fst (resolve_library_id (mk_ResolveLibraryIDRequest library_name) w)
    = Ok (mk_ResolveLibraryIDResponse text)
  <-> exists resp,
        fst (search_libraries library_name None (Some (api_key settings)) w) = Ok resp
        /\ finds_nothing resp = false
        /\ format_search_results resp = Ok text.
Proof.
  unfold resolve_library_id, bind, lift, finds_nothing. simpl.
  destruct (search_libraries library_name None _ w) as [[resp|e] w1]; simpl.
  - destruct (Json.get resp "results") as [o|e] eqn:Hget; simpl.
    + destruct (opt_truthy o) eqn:Ho; simpl.
      * destruct (format_search_results resp) as [t|e] eqn:Hf; simpl; split.
        -- intros [= ->]. exists resp. by rewrite Hget, Ho.
        -- intros (resp' & [= <-] & _ & Hf'). congruence.
        -- done.
        -- intros (resp' & [= <-] & _ & Hf'). congruence.
      * split; [done|]. intros (resp' & [= <-] & Hn & _).
        rewrite Hget, Ho in Hn. done.
    + split; [done|]. intros (resp' & Heq & _ & Hf).
      injection Heq as <-. destruct resp; done.
  - split; [done|]. by intros (resp' & ? & _).
Qed.

(** X7.  A batch of one name and the single-name route agree on success:
    [resolve_multiple_library_ids] answers [[name]] with the one-element
    list [[text]] exactly when [resolve_library_id] answers [name] with
    [text], whatever the completion order. *)
Theorem resolve_single_and_batch_agree sched library_name w text :
  fst (resolve_multiple_library_ids sched
         (mk_ResolveMultipleLibraryIDsRequest [library_name]) w)
    = Ok (mk_ResolveMultipleLibraryIDsResponse [text])
  <-> fst (resolve_library_id (mk_ResolveLibraryIDRequest library_name) w)
        = Ok (mk_ResolveLibraryIDResponse text).
Proof.
  rewrite resolve_library_id_ok.
  pose proof (resolve_multiple_library_ids_run sched
                (mk_ResolveMultipleLibraryIDsRequest [library_name])
                [library_name] w eq_refl) as Hrun.
  unfold resolve_multiple_library_ids. simpl in Hrun.
  unfold search_calls in Hrun. simpl in Hrun.
  destruct (search_libraries library_name None _ w) as [a w1]. simpl in *.
  rewrite <- (search_outcome_ok [library_name] a text).
  destruct (fst (resolve_multiple_library_ids_on _ _ w)) as [[vs]|e].
  - destruct vs as [|v [|v' vs]]; try done.
    injection Hrun as Hrun. split; [intros [= ->]|intros Ha]; congruence.
  - destruct Hrun as [i Hi]. destruct i as [|i]; [|done].
    injection Hi as Hi. split; [done|]. congruence.
Qed.

Lemma run_search_calls_world names w :
  snd (run_tasks (search_calls names) w) =
    {| calls := (calls w ++ map search_request names)%list; draws := draws w |}.
Proof.
  revert w. induction names as [|name names IH]; intros w.
  - simpl. rewrite app_nil_r. by destruct w.
  - unfold search_calls in *. simpl. rewrite search_libraries_handler. simpl.
    specialize (IH {| calls := (calls w ++ [search_request name])%list;
                      draws := draws w |}).
    destruct (run_tasks _ _) as [rs w2]. simpl in *. rewrite IH. simpl.
    by rewrite <- app_assoc.
Qed.

(** X8.  The calls [resolve_multiple_library_ids] gives rise to are one
    search call per name, in batch order, each with the bearer line and
    without the identity header, and no randomness is drawn; this is so for
    every completion order and also when the batch fails, since [gather]
    cancels no sibling. *)
Theorem resolve_multiple_library_ids_calls sched library_names w :
  snd (resolve_multiple_library_ids sched
         (mk_ResolveMultipleLibraryIDsRequest library_names) w) =
    {| calls := (calls w ++ map search_request library_names)%list;
       draws := draws w |}
  /\ Forall (fun req => headers req !! "mcp-client-ip" = None)
            (map search_request library_names).
Proof.
  split.
  - unfold resolve_multiple_library_ids, resolve_multiple_library_ids_on,
      bind, lift. simpl.
    destruct (gather_spec sched
                (map (_search (mk_ResolveMultipleLibraryIDsRequest library_names))
                     library_names) w) as [Hw _].
    rewrite (run_tasks_post
               (fun name => search_libraries name None (Some (api_key settings)))
               (_search (mk_ResolveMultipleLibraryIDsRequest library_names))
               (search_outcome library_names)) in Hw
      by (intros; by apply _search_run).
    simpl in Hw. fold (search_calls library_names) in Hw.
    rewrite run_search_calls_world in Hw.
    destruct (gather sched _ w) as [[vs|e] w1]; simpl in *; by subst.
  - induction library_names as [|name names IH]; constructor; [|done].
    unfold search_request, handler_headers. simpl.
    destruct (Py.str_truthy _); by rewrite ?lookup_insert_ne.
Qed.

(** ** Further properties of the header builder and the fetch call *)

Lemma fromhex_hex_cons x rest :
  Py.fromhex_opt (Py.hex (x :: rest)) =
    match Py.fromhex_opt (Py.hex rest) with
    | Some bs => Some (x :: bs)
    | None => None
    end.
Proof. destruct x; reflexivity. Qed.

Lemma fromhex_hex (b : list Byte.byte) : Py.fromhex (Py.hex b) = Ok b.
Proof.
  unfold Py.fromhex.
  assert (Py.fromhex_opt (Py.hex b) = Some b) as ->; [|done].
  induction b as [|x b IH]; [done|]. by rewrite fromhex_hex_cons, IH.
Qed.

Lemma hex_no_colon (b : list Byte.byte) :
  Json.contains ":"%char (Py.hex b) = false.
Proof.
  induction b as [|x b IH]; [done|].
  change (Py.hex (x :: b)) with
    (String (Py.hex_digit (Byte.to_N x / 16))
       (String (Py.hex_digit (Byte.to_N x mod 16)) (Py.hex b))).
  cbn [Json.contains]. rewrite IH. by destruct x.
Qed.

Lemma hex_length (b : list Byte.byte) :
  String.length (Py.hex b) = (2 * length b)%nat.
Proof. induction b as [|x b IH]; [done|]. simpl in *. rewrite IH. lia. Qed.

Lemma pkcs7_pad_spec (data : list Byte.byte) :
  exists k fill,
    (1 <= k <= 16)%nat
    /\ Byte.to_N fill = N.of_nat k
    /\ pkcs7_pad data = (data ++ repeat fill k)%list
    /\ (length (pkcs7_pad data) mod 16 = 0)%nat.
Proof.
  unfold pkcs7_pad.
  pose proof (Nat.mod_upper_bound (length data) 16 ltac:(lia)) as Hlt.
  set (k := (16 - length data mod 16)%nat).
  assert (1 <= k <= 16)%nat as Hk by (unfold k; lia).
  destruct (Byte.of_N (N.of_nat k)) as [fill|] eqn:Hfill.
  - exists k, fill. split; [done|]. split; [by apply Byte.to_of_N|].
    split; [done|].
    rewrite length_app, repeat_length.
    pose proof (Nat.div_mod_eq (length data) 16) as Hdm.
    replace (length data + k)%nat with ((length data / 16 + 1) * 16)%nat
      by (unfold k; lia).
    apply Nat.Div0.mod_mul.
  - apply Byte.of_N_None_iff in Hfill. lia.
Qed.

(** X9.  With a key of 16, 24 or 32 bytes, [encrypt_client_ip] returns the
    32 hexadecimal digits of the vector it drew, a colon, and the
    hexadecimal digits of the cipher text.  The first part has no colon, so
    the text splits at its first colon, and [bytes.fromhex] gives back the
    vector and the cipher text.  What is encrypted is the UTF-8 of the
    address followed by [k] bytes of value [k], [1 <= k <= 16], a positive
    multiple of 16 bytes in all.  One random draw is made and no upstream
    call. *)
Theorem encrypt_client_ip_output ip w key :
  Py.fromhex (client_ip_encryption_key settings) = Ok key ->
  (length key = 16 \/ length key = 24 \/ length key = 32)%nat ->
  length (entropy (draws w) 16) = 16%nat ->
  let iv := entropy (draws w) 16 in
  let plain := pkcs7_pad (Py.encode ip) in
  let ct := aes_cbc_encrypt key iv plain in
  encrypt_client_ip ip w =
    (Ok (Py.hex iv +:+ ":" +:+ Py.hex ct),
     {| calls := calls w; draws := S (draws w) |})
  /\ String.length (Py.hex iv) = 32%nat
  /\ Json.contains ":"%char (Py.hex iv) = false
  /\ Py.fromhex (Py.hex iv) = Ok iv
  /\ Py.fromhex (Py.hex ct) = Ok ct
  /\ (exists k fill,
        (1 <= k <= 16)%nat /\ Byte.to_N fill = N.of_nat k
        /\ plain = (Py.encode ip ++ repeat fill k)%list)
  /\ (length plain mod 16 = 0)%nat.
Proof.
  intros Hkey Hlen Hiv iv plain ct.
  split; [|split; [|split; [|split; [|split; [|split]]]]].
  - rewrite encrypt_client_ip_run, Hkey. simpl.
    unfold algorithms_AES, Cipher_CBC. rewrite Hiv.
    by destruct Hlen as [->|[->| ->]].
  - rewrite hex_length. unfold iv. rewrite Hiv. done.
  - apply hex_no_colon.
  - apply fromhex_hex.
  - apply fromhex_hex.
  - destruct (pkcs7_pad_spec (Py.encode ip)) as (k & fill & Hk & Hfill & Hpad & _).
    by exists k, fill.
  - by destruct (pkcs7_pad_spec (Py.encode ip)) as (k & fill & _ & _ & _ & Hmod).
Qed.

(** X10.  [generate_headers] fails only on the key: given that the random
    source hands out the 16 bytes asked for, it returns a header map exactly
    when no address is passed, or an empty one, or the configured key is
    the hexadecimal text of 16, 24 or 32 bytes. *)
Theorem generate_headers_succeeds_iff client_ip api_key extra w :
  length (entropy (draws w) 16) = 16%nat ->
  is_ok (fst (generate_headers client_ip api_key extra w)) = true
  <-> (client_ip = None \/ client_ip = Some ""
       \/ exists key,
            Py.fromhex (client_ip_encryption_key settings) = Ok key
            /\ (length key = 16 \/ length key = 24 \/ length key = 32)%nat).
Proof.
  intros Hiv. unfold generate_headers, bind, ret.
  destruct client_ip as [[|c ip]|]; simpl.
  - split; [intros _; right; by left|done].
  - pose proof (encrypt_client_ip_run (String c ip) w) as Hrun.
    destruct (encrypt_client_ip (String c ip) w) as [[enc|e] w1] eqn:Henc; simpl.
    + split; [intros _|done]. right. right.
      destruct (Py.fromhex _) as [key|]; [|done]. exists key. split; [done|].
      simpl in Hrun.
      destruct (decide (length key = 16 \/ length key = 24 \/ length key = 32)%nat)
        as [Hlen|Hlen]; [done|].
      destruct (bad_key_rejected key (entropy (draws w) 16) Hlen) as [Hb|[Ha Hb]].
      * by rewrite Hb in Hrun.
      * by rewrite Ha, Hb in Hrun.
    + split; [done|]. intros [?|[?|(key & Hkey & Hlen)]]; try done.
      pose proof (encrypt_client_ip_good_key (String c ip) w key Hkey Hlen Hiv)
        as Hok.
      by rewrite Henc in Hok.
  - split; [intros _; by left|done].
Qed.

(** X11.  [generate_headers] never issues an upstream call; it draws from
    the random source at most once, and not at all when no address, or an
    empty one, is passed. *)
Theorem generate_headers_world client_ip api_key extra w :
  let w' := snd (generate_headers client_ip api_key extra w) in
  calls w' = calls w
  /\ (draws w' = draws w \/ draws w' = S (draws w))
  /\ (if Py.str_truthy (default "" client_ip) then True else w' = w).
Proof.
  unfold generate_headers, bind, ret.
  destruct client_ip as [[|c ip]|]; simpl; [by auto| |by auto].
  pose proof (encrypt_client_ip_run (String c ip) w) as Hrun.
  destruct (encrypt_client_ip (String c ip) w) as [[enc|e] w1]; simpl.
  all: destruct (Py.fromhex _) as [key|]; simpl in Hrun.
  all: try destruct (algorithms_AES key); try destruct (Cipher_CBC key _).
  all: injection Hrun as _ ->; simpl; auto.
Qed.

Lemma generate_headers_keeps_source client_ip api_key w h w1 :
  generate_headers client_ip api_key
    (Some {["X-Context7-Source" := "mcp-server"]}) w = (Ok h, w1) ->
  h !! "X-Context7-Source" = Some "mcp-server".
Proof.
  unfold generate_headers, bind, ret. rewrite source_header_not_empty.
  intros Hrun.
  destruct client_ip as [[|c ip]|]; simpl in Hrun;
    [| destruct (encrypt_client_ip (String c ip) w) as [[enc|e] w2]; [|done] |].
  all: destruct api_key as [[|c' k]|]; simpl in Hrun; injection Hrun as <- _.
  all: rewrite ?lookup_insert_ne by done; by rewrite lookup_singleton_eq.
Qed.

(** X12.  Every call [fetch_library_docs] issues carries the header
    ["X-Context7-Source: mcp-server"] and the parameters [tokens], [topic]
    (as passed) and [type = txt], in this order, whatever address and key
    are given. *)
Theorem fetch_library_docs_marks_source
    library_id tokens topic client_ip api_key w h w1 :
  generate_headers client_ip api_key
    (Some {["X-Context7-Source" := "mcp-server"]}) w = (Ok h, w1) ->
  exists req,
    calls (snd (fetch_library_docs library_id tokens topic client_ip api_key w))
      = (calls w1 ++ [req])%list
    /\ headers req !! "X-Context7-Source" = Some "mcp-server"
    /\ map fst (params req) = ["tokens"; "topic"; "type"]
    /\ map snd (params req) =
         [Py.str_of_int (Z.max tokens (minimum_tokens settings)); topic; "txt"].
Proof.
  intros Hh. rewrite (fetch_library_docs_run _ _ _ _ _ _ _ _ Hh). simpl.
  eexists. split; [reflexivity|]. simpl.
  split; [|done]. by apply (generate_headers_keeps_source client_ip api_key w h w1).
Qed.

(** X13.  Token budgets at or below the configured minimum are all the
    same to [fetch_library_docs]: two such budgets give the same call, the
    same result and the same world. *)
Theorem fetch_library_docs_below_minimum
    library_id tokens1 tokens2 topic client_ip api_key w :
  tokens1 <= minimum_tokens settings ->
  tokens2 <= minimum_tokens settings ->
  fetch_library_docs library_id tokens1 topic client_ip api_key w =
  fetch_library_docs library_id tokens2 topic client_ip api_key w.
Proof.
  intros H1 H2. unfold fetch_library_docs.
  by rewrite (Z.max_r tokens1), (Z.max_r tokens2).
Qed.

Lemma run_search_calls_lookup names :
  forall w i name,
    names !! i = Some name ->
    fst (run_tasks (search_calls names) w) !! i =
      Some (fst (search_libraries name None (Some (api_key settings))
                   {| calls := (calls w ++ map search_request (take i names))%list;
                      draws := draws w |})).
Proof.
  induction names as [|n names IH]; intros w i name Hi; [done|].
  unfold search_calls in *. cbn [map run_tasks].
  destruct i as [|i].
  - injection Hi as ->. simpl. rewrite app_nil_r.
    destruct (search_libraries name None _ w) as [r w1] eqn:Hs.
    destruct (run_tasks _ w1) as [rs w2]. simpl.
    destruct w as [cs ds]. simpl. by rewrite Hs.
  - simpl in Hi.
    pose proof (search_libraries_handler n w) as Hs. simpl in Hs.
    destruct (search_libraries n None _ w) as [r w1]. injection Hs as _ ->.
    specialize (IH {| calls := (calls w ++ [search_request n])%list;
                      draws := draws w |} i name Hi).
    destruct (run_tasks _ _) as [rs w2]. simpl in *. rewrite IH.
    by rewrite <- app_assoc.
Qed.

(** X18.  An upstream failure of one member fails the batch: if the search
    call of any name of the batch is answered with a status other than 200
    (the answer may depend on the calls dispatched before it), then
    [resolve_multiple_library_ids] raises and returns no list, for every
    completion order. *)
Theorem resolve_multiple_library_ids_upstream_failure
    sched library_names w i name :
  library_names !! i = Some name ->
  status_code
    (upstream (calls w ++ map search_request (take i library_names))%list
       (search_request name)) <> 200 ->
  is_ok (fst (resolve_multiple_library_ids sched
                (mk_ResolveMultipleLibraryIDsRequest library_names) w)) = false.
Proof.
  intros Hi Hstatus.
  pose proof (run_search_calls_lookup library_names w i name Hi) as Hanswer.
  rewrite search_libraries_handler in Hanswer. simpl in Hanswer.
  rewrite decide_False in Hanswer by done.
  pose proof (resolve_multiple_library_ids_run sched
                (mk_ResolveMultipleLibraryIDsRequest library_names)
                library_names w eq_refl) as Hrun.
  simpl in Hrun. unfold resolve_multiple_library_ids.
  destruct (fst (resolve_multiple_library_ids_on _ _ w)) as [[vs]|e]; [|done].
  exfalso.
  assert (map (search_outcome library_names)
              (fst (run_tasks (search_calls library_names) w)) !! i
          = Some (Raise (names_not_found library_names))) as Hraise.
  { rewrite list_lookup_fmap, Hanswer. simpl.
    by rewrite search_outcome_nothing. }
  rewrite Hrun in Hraise. by apply map_Ok_no_Raise in Hraise.
Qed.

End Context7.

(** ** Properties of the settings printer and of the location column *)

Lemma append_nil_r_string (a : string) : a +:+ "" = a.
Proof.
  induction a as [|c a IH]; [done|].
  change (String c (a +:+ "") = String c a). by rewrite IH.
Qed.

Lemma concat_empty_cons (x : string) (l : list string) :
  String.concat "" (x :: l) = x +:+ String.concat "" l.
Proof.
  destruct l as [|y l]; [by rewrite append_nil_r_string|]. reflexivity.
Qed.

Lemma Settings_str_of_dump_lines (dump : list (string * field_value)) acc :
  fold_left
    (fun msg kv =>
       msg +:+ ("  " +:+ fst kv +:+ ": "
                  +:+ field_str (mask_secret (fst kv) (snd kv)) +:+ newline))
    dump acc
  = acc +:+ String.concat ""
              (map (fun kv => "  " +:+ fst kv +:+ ": "
                                +:+ field_str (mask_secret (fst kv) (snd kv))
                                +:+ newline) dump).
Proof.
  revert acc. induction dump as [|kv dump IH]; intros acc.
  - simpl. by rewrite append_nil_r_string.
  - cbn [fold_left map]. rewrite IH, concat_empty_cons.
    by rewrite append_assoc_string.
Qed.

(** X15.  No field of [Settings] has a name that contains ["secret"] or
    ["password"], so the masking of [__str__] never applies: the text is the
    heading followed by one line per field, in declaration order, each with
    the field's own [str]; the encryption key is printed in clear, and the
    API key shows as asterisks only because it is a [SecretStr]. *)
Theorem Settings_str_lines (s : ServerSettings) :
  Settings_str s =
    (newline +:+ "Loaded config:" +:+ newline) +:+
    String.concat ""
      [ "  app_host: " +:+ app_host s +:+ newline;
        "  app_port: " +:+ Py.str_of_int (app_port s) +:+ newline;
        "  mcp_path: " +:+ mcp_path s +:+ newline;
        "  api_path: " +:+ api_path s +:+ newline;
        "  log_level: " +:+ log_level s +:+ newline;
        "  cert_file: " +:+ cert_file s +:+ newline;
        "  key_file: " +:+ key_file s +:+ newline;
        "  app_root_path: " +:+ app_root_path s +:+ newline;
        "  client_ip_encryption_key: "
          +:+ client_ip_encryption_key (core_settings s) +:+ newline;
        "  context7_api_base_url: "
          +:+ context7_api_base_url (core_settings s) +:+ newline;
        "  default_tokens: "
          +:+ Py.str_of_int (default_tokens (core_settings s)) +:+ newline;
        "  minimum_tokens: "
          +:+ Py.str_of_int (minimum_tokens (core_settings s)) +:+ newline;
        "  api_key: "
          +:+ (if Py.str_truthy (api_key (core_settings s))
               then "**********" else "") +:+ newline;
        "  fastmcp_experimental_enable_new_openapi_parser: "
          +:+ (if fastmcp_experimental_enable_new_openapi_parser s
               then "True" else "False") +:+ newline ].
Proof.
  unfold Settings_str, Settings_str_of_dump.
  rewrite Settings_str_of_dump_lines. reflexivity.
Qed.

(** X16.  A field is masked by name alone: for every dump, a key that
    contains ["secret"] or ["password"] in any mix of cases has its value
    printed as ["***"], whatever the value, and the printed text does not
    depend on that value. *)
Theorem Settings_str_masks_by_name
    (before after : list (string * field_value)) key v1 v2 :
  is_substring "secret" (lower key) = true
  \/ is_substring "password" (lower key) = true ->
  Settings_str_of_dump (before ++ (key, v1) :: after)
  = Settings_str_of_dump (before ++ (key, v2) :: after)
  /\ field_str (mask_secret key v1) = "***".
Proof.
  intros Hkey.
  assert (forall v, mask_secret key v = FStr "***") as Hmask.
  { intros v. unfold mask_secret, secret_terms. cbn [fold_left].
    change (lower "secret") with "secret".
    change (lower "password") with "password".
    destruct Hkey as [-> | ->]; [|done].
    by destruct (is_substring "password" (lower key)). }
  split; [|by rewrite Hmask].
  unfold Settings_str_of_dump. rewrite !Settings_str_of_dump_lines.
  rewrite !map_app. cbn [map fst snd]. by rewrite !Hmask.
Qed.

Lemma string_drop_length n s :
  String.length (string_drop n s) = (String.length s - n)%nat.
Proof.
  revert s. induction n as [|n IH]; intros s; simpl; [lia|].
  destruct s as [|c s]; [done|]. simpl. apply IH.
Qed.

Lemma append_length_string (a b : string) :
  String.length (a +:+ b) = (String.length a + String.length b)%nat.
Proof.
  induction a as [|c a IH]; [done|].
  change (S (String.length (a +:+ b)) = S (String.length a + String.length b)).
  by rewrite IH.
Qed.

Lemma spaces_length n : String.length (spaces n) = n.
Proof. induction n as [|n IH]; [done|]. simpl. by rewrite IH. Qed.

(** X17.  The location text of a log record is always exactly 25
    characters long, whatever the path and the line number. *)
Theorem loc_content_width file_path line :
  String.length (loc_content file_path line) = 25%nat.
Proof.
  unfold loc_content, last_chars, ljust.
  set (loc := file_path +:+ ":" +:+ Py.str_of_int line).
  destruct (Nat.ltb_spec 25 (String.length loc)) as [Hlong|Hshort].
  - rewrite append_length_string, string_drop_length. simpl. lia.
  - rewrite append_length_string, spaces_length. lia.
Qed.

(** ** The batch fetch route on requests of its declared class *)

(** C1.  A batch with two ids, three token counts and two topics, on the
    example deployment: the handler does not reach its length check.  It
    stops at [request.library_ids] with [AttributeError], since the request
    class calls that field [library_id]; no upstream call is made, but the
    failure is not the status 400 rejection that the length check raises
    for an object that has the attribute. *)
Theorem get_multiple_library_docs_mismatch_example :
  get_multiple_library_docs Example.settings Example.entropy
    Example.aes_cbc_encrypt Example.upstream []
    (mk_GetMultipleLibraryDocsRequest
       ["/tiangolo/fastapi"; "/sqlalchemy/sqlalchemy"]
       [2500; 2500; 2500] ["routing"; "orm"])
    Example.world
  = (Raise AttributeError, Example.world)
  /\ get_multiple_library_docs_on Example.settings Example.entropy
       Example.aes_cbc_encrypt Example.upstream []
       (mk_AlignedBatch
          ["/tiangolo/fastapi"; "/sqlalchemy/sqlalchemy"]
          [2500; 2500; 2500] ["routing"; "orm"])
       Example.world
     = (Raise (HTTPException 400
                 "Lengths of library_ids, tokens, and topics must match."),
        Example.world).
Proof.
  split.
  - apply get_multiple_library_docs_raises.
  - apply get_multiple_library_docs_on_mismatch. simpl. lia.
Qed.

(** C3.  The batch of the description, on the example catalog, which has
    text for the first id and the sentinel for the second: the handler
    raises [AttributeError] instead of returning the text and the
    placeholder, which is what it returns for an object that has the
    attribute [library_ids]. *)
Theorem get_multiple_library_docs_placeholder_example :
  fst (get_multiple_library_docs Example.settings Example.entropy
         Example.aes_cbc_encrypt Example.upstream []
         (mk_GetMultipleLibraryDocsRequest
            ["/tiangolo/fastapi"; "/bad/id"] [2500; 2500] ["routing"; "x"])
         Example.world)
  = Raise AttributeError
  /\ fst (get_multiple_library_docs_on Example.settings Example.entropy
            Example.aes_cbc_encrypt Example.upstream []
            (mk_AlignedBatch
               ["/tiangolo/fastapi"; "/bad/id"] [2500; 2500] ["routing"; "x"])
            Example.world)
     = Ok (mk_GetMultipleLibraryDocsResponse
             ["Documentation of https://context7.com/api/v1/tiangolo/fastapi";
              "Documentation not found for /bad/id with topic 'x'."]).
Proof.
  split.
  - by rewrite get_multiple_library_docs_raises.
  - vm_compute. reflexivity.
Qed.


(** C10.  A library whose status 200 answer has an empty body:
    [fetch_library_docs] returns the empty text, not [None];
    [get_library_docs] raises the not-found exception; the batch handler,
    however, raises [AttributeError] instead of returning the placeholder,
    which is what it returns for an object that has the attribute
    [library_ids]. *)
Theorem empty_body_example :
  fst (fetch_library_docs Example.settings Example.entropy
         Example.aes_cbc_encrypt Example.upstream
         "/empty/id" 2500 "x" None (Some "secret") Example.world)
  = Ok (Some "")
  /\ fst (get_library_docs Example.settings Example.entropy
            Example.aes_cbc_encrypt Example.upstream
            (mk_GetLibraryDocsRequest "/empty/id" 2500 "x") Example.world)
     = Raise (DocumentationNotFoundException 404 "Documentation not found.")
  /\ fst (get_multiple_library_docs Example.settings Example.entropy
            Example.aes_cbc_encrypt Example.upstream []
            (mk_GetMultipleLibraryDocsRequest ["/empty/id"] [2500] ["x"])
            Example.world)
     = Raise AttributeError
  /\ fst (get_multiple_library_docs_on Example.settings Example.entropy
            Example.aes_cbc_encrypt Example.upstream []
            (mk_AlignedBatch ["/empty/id"] [2500] ["x"])
            Example.world)
     = Ok (mk_GetMultipleLibraryDocsResponse
             ["Documentation not found for /empty/id with topic 'x'."]).
Proof.
  assert (fst (fetch_library_docs Example.settings Example.entropy
                 Example.aes_cbc_encrypt Example.upstream
                 "/empty/id" 2500 "x" None (Some "secret") Example.world)
          = Ok (Some "")) as Hdocs by (vm_compute; reflexivity).
  split; [done|]. split; [|split].
  - by apply (get_library_docs_empty_body Example.settings).
  - by rewrite get_multiple_library_docs_raises.
  - vm_compute. reflexivity.
Qed.

(** ** Counterexamples to the descriptions that the code does not follow *)

(** C2.  The batch [["odd"; "bad"]] on the example catalog, completing in
    batch order: ["bad"] finds nothing, yet the exception is the decoding
    error of ["odd"], which completes first, and not the not-found exception
    with the list of names. *)
Lemma resolve_multiple_library_ids_other_failure_first :
  ~ fail_fast_as_described Example.settings Example.entropy
      Example.aes_cbc_encrypt Example.upstream Example.json_loads
      Example.float_repr [] ["odd"; "bad"] Example.world.
Proof.
  unfold fail_fast_as_described. intros Hclaim.
  assert (fst (resolve_multiple_library_ids Example.settings Example.entropy
                 Example.aes_cbc_encrypt Example.upstream Example.json_loads
                 Example.float_repr []
                 (mk_ResolveMultipleLibraryIDsRequest ["odd"; "bad"])
                 Example.world)
          = Raise JSONDecodeError) as Hrun by (vm_compute; reflexivity).
  rewrite Hrun in Hclaim.
  assert (@Raise ResolveMultipleLibraryIDsResponse JSONDecodeError
          = Raise (names_not_found ["odd"; "bad"])) as Heq.
  { apply Hclaim. exists 1%nat, (JDict [("results", JList [])]).
    split; vm_compute; reflexivity. }
  discriminate Heq.
Qed.

(** C8.  Three calls on the example deployment after which the header map
    is not as described: an extra ["Authorization"] header is replaced by
    the bearer line; an extra ["mcp-client-ip"] header stays in the map
    although no address is passed; an empty address adds no identity
    header. *)
Lemma generate_headers_not_as_described :
  (exists h,
     fst (generate_headers Example.settings Example.entropy
            Example.aes_cbc_encrypt None (Some "secret")
            (Some {["Authorization" := "Basic abc"]}) Example.world) = Ok h
     /\ ~ headers_as_described None (Some "secret")
            (Some {["Authorization" := "Basic abc"]}) h)
  /\ (exists h,
        fst (generate_headers Example.settings Example.entropy
               Example.aes_cbc_encrypt None None
               (Some {["mcp-client-ip" := "spoofed"]}) Example.world) = Ok h
        /\ ~ headers_as_described None None
               (Some {["mcp-client-ip" := "spoofed"]}) h)
  /\ (exists h,
        fst (generate_headers Example.settings Example.entropy
               Example.aes_cbc_encrypt (Some "") None None Example.world) = Ok h
        /\ ~ headers_as_described (Some "") None None h).
Proof.
  split; [|split].
  - eexists. split; [reflexivity|].
    intros (_ & _ & Hextra).
    specialize (Hextra "Authorization" "Basic abc" eq_refl).
    vm_compute in Hextra. discriminate Hextra.
  - eexists. split; [reflexivity|].
    intros ([Hid _] & _ & _).
    destruct Hid as [x Hx]; [by eexists|]. discriminate Hx.
  - eexists. split; [reflexivity|].
    intros ([_ Hid] & _ & _).
    destruct Hid as [x Hx]; [by eexists|]. vm_compute in Hx. discriminate Hx.
Qed.

(** ** The general statements at work on the example deployment *)

Lemma fetch_library_docs_transmits_witness :
  exists h w1,
    generate_headers Example.settings Example.entropy Example.aes_cbc_encrypt
      (Some "203.0.113.7") (Some "secret")
      (Some {["X-Context7-Source" := "mcp-server"]}) Example.world = (Ok h, w1)
    /\ exists path,
         calls (snd (fetch_library_docs Example.settings Example.entropy
                       Example.aes_cbc_encrypt Example.upstream
                       "/tiangolo/fastapi" 10 "routing"
                       (Some "203.0.113.7") (Some "secret") Example.world)) =
           (calls w1 ++
            [{| url := "https://context7.com/api" +:+ "/v1/" +:+ path;
                params := [("tokens", Py.str_of_int (Z.max 10 1000));
                           ("topic", "routing"); ("type", "txt")];
                headers := h |}])%list
         /\ path = "tiangolo/fastapi".
Proof.
  eexists _, _. split; [reflexivity|].
  destruct (fetch_library_docs_transmits Example.settings Example.entropy
              Example.aes_cbc_encrypt Example.upstream
              "/tiangolo/fastapi" 10 "routing"
              (Some "203.0.113.7") (Some "secret") Example.world _ _ eq_refl)
    as (path & Hcalls & Hstrip & _).
  exists path. split; [exact Hcalls|]. apply Hstrip. reflexivity.
Defined.



Lemma encrypt_client_ip_bad_key_witness :
  ~ (exists key,
       Py.fromhex (client_ip_encryption_key Example.settings_short_key) = Ok key
       /\ (length key = 16 \/ length key = 24 \/ length key = 32)%nat)
  /\ (exists w',
        encrypt_client_ip Example.settings_short_key Example.entropy
          Example.aes_cbc_encrypt "203.0.113.7" Example.world
        = (Raise ValueError, w')
        /\ calls w' = calls Example.world).
Proof.
  assert (~ (exists key,
               Py.fromhex (client_ip_encryption_key Example.settings_short_key)
               = Ok key
               /\ (length key = 16 \/ length key = 24 \/ length key = 32)%nat))
    as Hbad.
  { intros (key & Hkey & Hlen). vm_compute in Hkey. injection Hkey as <-.
    simpl in Hlen. lia. }
  split; [exact Hbad|].
  exact (proj1 (encrypt_client_ip_bad_key Example.settings_short_key
                  Example.entropy Example.aes_cbc_encrypt
                  "203.0.113.7" Example.world Hbad)).
Defined.

Lemma generate_headers_contents_witness :
  exists h w',
    generate_headers Example.settings Example.entropy Example.aes_cbc_encrypt
      (Some "203.0.113.7") (Some "secret")
      (Some {["Authorization" := "Basic abc"; "Accept" := "text/plain"]})
      Example.world = (Ok h, w')
    /\ h !! "Accept" = Some "text/plain"
    /\ h !! "Authorization" = Some "Bearer secret"
    /\ exists enc,
         encrypt_client_ip Example.settings Example.entropy
           Example.aes_cbc_encrypt "203.0.113.7" Example.world = (Ok enc, w')
         /\ h !! "mcp-client-ip" = Some enc.
Proof.
  eexists _, _. split; [reflexivity|].
  destruct (generate_headers_contents Example.settings Example.entropy
              Example.aes_cbc_encrypt
              (Some "203.0.113.7") (Some "secret")
              (Some {["Authorization" := "Basic abc"; "Accept" := "text/plain"]})
              Example.world _ _ eq_refl)
    as (Hother & Hip & _ & Hkey & _).
  split; [|split].
  - etransitivity; [apply (Hother "Accept"); discriminate|reflexivity].
  - apply (Hkey "secret"); [reflexivity|discriminate].
  - apply (Hip "203.0.113.7"); [reflexivity|discriminate].
Defined.

Lemma resolve_multiple_library_ids_fail_fast_witness :
  (exists i resp,
     fst (run_tasks
            (search_calls Example.settings Example.entropy
               Example.aes_cbc_encrypt Example.upstream Example.json_loads
               ["good"; "bad"])
            Example.world) !! i = Some (Ok resp)
     /\ finds_nothing resp = true)
  /\ fst (resolve_multiple_library_ids Example.settings Example.entropy
            Example.aes_cbc_encrypt Example.upstream Example.json_loads
            Example.float_repr [1; 0]%nat
            (mk_ResolveMultipleLibraryIDsRequest ["good"; "bad"])
            Example.world)
     = Raise (names_not_found ["good"; "bad"]).
Proof.
  assert (exists i resp,
            fst (run_tasks
                   (search_calls Example.settings Example.entropy
                      Example.aes_cbc_encrypt Example.upstream
                      Example.json_loads ["good"; "bad"])
                   Example.world) !! i = Some (Ok resp)
            /\ finds_nothing resp = true) as Hnone.
  { exists 1%nat, (JDict [("results", JList [])]).
    split; vm_compute; reflexivity. }
  split; [exact Hnone|].
  apply (resolve_multiple_library_ids_fail_fast Example.settings
           Example.entropy Example.aes_cbc_encrypt Example.upstream
           Example.json_loads Example.float_repr [1; 0]%nat
           ["good"; "bad"] Example.world Hnone).
  intros i a Ha. vm_compute in Ha.
  destruct i as [|[|i]]; [| |discriminate Ha]; injection Ha as <-;
    eexists; (split; [reflexivity|]).
  - right. vm_compute. reflexivity.
  - left. vm_compute. reflexivity.
Defined.

(** ** The further statements at work on the example deployment *)

Lemma format_search_results_succeeds_iff_witness :
  Json.assoc "results"
    [("results", JList [JDict [("title", JStr "FastAPI"); ("totalSnippets", JInt 12)];
                        JDict [("title", JStr "Flask"); ("totalSnippets", JNull)]])]
  = Some (JList [JDict [("title", JStr "FastAPI"); ("totalSnippets", JInt 12)];
                 JDict [("title", JStr "Flask"); ("totalSnippets", JNull)]])
  /\ is_ok (format_search_results Example.float_repr
              (JDict [("results",
                       JList [JDict [("title", JStr "FastAPI");
                                     ("totalSnippets", JInt 12)];
                              JDict [("title", JStr "Flask");
                                     ("totalSnippets", JNull)]])]))
     <> true.
Proof.
  split; [reflexivity|].
  intros Hok.
  apply (format_search_results_succeeds_iff Example.float_repr
           [("results",
             JList [JDict [("title", JStr "FastAPI"); ("totalSnippets", JInt 12)];
                    JDict [("title", JStr "Flask"); ("totalSnippets", JNull)]])]
           [JDict [("title", JStr "FastAPI"); ("totalSnippets", JInt 12)];
            JDict [("title", JStr "Flask"); ("totalSnippets", JNull)]]
           eq_refl) in Hok.
  vm_compute in Hok. discriminate Hok.
Defined.

Lemma format_search_results_app_witness :
  format_search_results Example.float_repr
    (JDict [("results", JList [JDict [("title", JStr "FastAPI")];
                               JDict [("title", JStr "Flask")]])])
  = Ok (("- Title: FastAPI" +:+ newline +:+ "- ID: " +:+ newline
           +:+ "- Description: ")
          +:+ block_separator
          +:+ ("- Title: Flask" +:+ newline +:+ "- ID: " +:+ newline
                 +:+ "- Description: ")).
Proof.
  apply (format_search_results_app Example.float_repr
           [("results", JList [JDict [("title", JStr "FastAPI")]])]
           [("results", JList [JDict [("title", JStr "Flask")]])]
           [("results", JList [JDict [("title", JStr "FastAPI")];
                               JDict [("title", JStr "Flask")]])]
           [JDict [("title", JStr "FastAPI")]]
           [JDict [("title", JStr "Flask")]]);
    (reflexivity || discriminate).
Defined.

Lemma format_search_results_bare_hit_witness :
  format_search_results Example.float_repr
    (JDict [("results",
             JList [JDict [("id", JStr "/pallets/flask");
                           ("totalSnippets", JInt 0);
                           ("trustScore", JInt 0);
                           ("versions", JList [])]])])
  = Ok ("- Title: " +:+ "" +:+ newline
          +:+ "- ID: " +:+ "/pallets/flask" +:+ newline
          +:+ "- Description: " +:+ "").
Proof.
  apply (format_search_results_bare_hit Example.float_repr
           [("results",
             JList [JDict [("id", JStr "/pallets/flask");
                           ("totalSnippets", JInt 0);
                           ("trustScore", JInt 0);
                           ("versions", JList [])]])]
           [("id", JStr "/pallets/flask");
            ("totalSnippets", JInt 0);
            ("trustScore", JInt 0);
            ("versions", JList [])]);
    reflexivity.
Defined.

Lemma encrypt_client_ip_output_witness :
  exists key,
    Py.fromhex (client_ip_encryption_key Example.settings) = Ok key
    /\ length key = 16%nat
    /\ length (Example.entropy (draws Example.world) 16) = 16%nat
    /\ fst (encrypt_client_ip Example.settings Example.entropy
              Example.aes_cbc_encrypt "203.0.113.7" Example.world)
       = Ok (Py.hex (Example.entropy 0 16) +:+ ":"
               +:+ Py.hex (Example.aes_cbc_encrypt key (Example.entropy 0 16)
                             (pkcs7_pad (Py.encode "203.0.113.7")))).
Proof.
  eexists. split; [reflexivity|]. split; [reflexivity|]. split; [reflexivity|].
  destruct (encrypt_client_ip_output Example.settings Example.entropy
              Example.aes_cbc_encrypt "203.0.113.7" Example.world _
              eq_refl (or_introl eq_refl) eq_refl) as [Hrun _].
  simpl in Hrun. rewrite Hrun. reflexivity.
Defined.

Lemma generate_headers_succeeds_iff_witness :
  length (Example.entropy (draws Example.world) 16) = 16%nat
  /\ is_ok (fst (generate_headers Example.settings_short_key Example.entropy
                   Example.aes_cbc_encrypt (Some "203.0.113.7") (Some "secret")
                   None Example.world)) <> true.
Proof.
  split; [reflexivity|]. intros Hok.
  apply (generate_headers_succeeds_iff Example.settings_short_key
           Example.entropy Example.aes_cbc_encrypt
           (Some "203.0.113.7") (Some "secret") None Example.world eq_refl)
    in Hok.
  destruct Hok as [Hno|[Hempty|(key & Hkey & Hlen)]];
    [discriminate Hno|discriminate Hempty|].
  vm_compute in Hkey. injection Hkey as <-. simpl in Hlen. lia.
Defined.

Lemma fetch_library_docs_marks_source_witness :
  exists h w1,
    generate_headers Example.settings Example.entropy Example.aes_cbc_encrypt
      (Some "203.0.113.7") (Some "secret")
      (Some {["X-Context7-Source" := "mcp-server"]}) Example.world = (Ok h, w1)
    /\ exists req,
         calls (snd (fetch_library_docs Example.settings Example.entropy
                       Example.aes_cbc_encrypt Example.upstream
                       "/tiangolo/fastapi" 2500 "routing"
                       (Some "203.0.113.7") (Some "secret") Example.world))
           = (calls w1 ++ [req])%list
         /\ headers req !! "X-Context7-Source" = Some "mcp-server"
         /\ map fst (params req) = ["tokens"; "topic"; "type"]
         /\ map snd (params req) =
              [Py.str_of_int (Z.max 2500 (minimum_tokens Example.settings));
               "routing"; "txt"].
Proof.
  eexists _, _. split; [reflexivity|].
  apply (fetch_library_docs_marks_source Example.settings Example.entropy
           Example.aes_cbc_encrypt Example.upstream
           "/tiangolo/fastapi" 2500 "routing"
           (Some "203.0.113.7") (Some "secret") Example.world _ _ eq_refl).
Defined.

Lemma fetch_library_docs_below_minimum_witness :
  10 <= minimum_tokens Example.settings
  /\ -3 <= minimum_tokens Example.settings
  /\ fetch_library_docs Example.settings Example.entropy
       Example.aes_cbc_encrypt Example.upstream
       "/tiangolo/fastapi" 10 "routing" None (Some "secret") Example.world
     = fetch_library_docs Example.settings Example.entropy
         Example.aes_cbc_encrypt Example.upstream
         "/tiangolo/fastapi" (-3) "routing" None (Some "secret") Example.world.
Proof.
  assert (10 <= minimum_tokens Example.settings) as H1 by (simpl; lia).
  assert (-3 <= minimum_tokens Example.settings) as H2 by (simpl; lia).
  split; [exact H1|]. split; [exact H2|].
  apply (fetch_library_docs_below_minimum Example.settings Example.entropy
           Example.aes_cbc_encrypt Example.upstream
           "/tiangolo/fastapi" 10 (-3) "routing" None (Some "secret")
           Example.world H1 H2).
Defined.

Lemma Settings_str_masks_by_name_witness :
  (is_substring "secret" (lower "JWT_Secret_Key") = true
   \/ is_substring "password" (lower "JWT_Secret_Key") = true)
  /\ Settings_str_of_dump
       ([("app_host", FStr "0.0.0.0")] ++
        ("JWT_Secret_Key", FStr "hunter2") :: [("app_port", FInt 8000)])
     = Settings_str_of_dump
         ([("app_host", FStr "0.0.0.0")] ++
          ("JWT_Secret_Key", FInt 0) :: [("app_port", FInt 8000)]).
Proof.
  assert (is_substring "secret" (lower "JWT_Secret_Key") = true
          \/ is_substring "password" (lower "JWT_Secret_Key") = true) as Hkey
    by (left; reflexivity).
  split; [exact Hkey|].
  exact (proj1 (Settings_str_masks_by_name
                  [("app_host", FStr "0.0.0.0")] [("app_port", FInt 8000)]
                  "JWT_Secret_Key" (FStr "hunter2") (FInt 0) Hkey)).
Defined.

Lemma resolve_multiple_library_ids_upstream_failure_witness :
  ["fastapi"; "gone"] !! 1%nat = Some "gone"
  /\ status_code
       ((fun history req =>
           if decide (params req = [("query", "gone")])
           then {| status_code := 503; text := "Service Unavailable" |}
           else Example.upstream history req)
          (calls Example.world ++
           map (search_request Example.settings) (take 1 ["fastapi"; "gone"]))%list
          (search_request Example.settings "gone")) <> 200
  /\ is_ok (fst (resolve_multiple_library_ids Example.settings Example.entropy
                   Example.aes_cbc_encrypt
                   (fun history req =>
                      if decide (params req = [("query", "gone")])
                      then {| status_code := 503; text := "Service Unavailable" |}
                      else Example.upstream history req)
                   Example.json_loads Example.float_repr [0; 1]%nat
                   (mk_ResolveMultipleLibraryIDsRequest ["fastapi"; "gone"])
                   Example.world)) = false.
Proof.
  assert (status_code
            ((fun history req =>
                if decide (params req = [("query", "gone")])
                then {| status_code := 503; text := "Service Unavailable" |}
                else Example.upstream history req)
               (calls Example.world ++
                map (search_request Example.settings)
                    (take 1 ["fastapi"; "gone"]))%list
               (search_request Example.settings "gone")) <> 200) as Hstatus
    by (vm_compute; discriminate).
  split; [reflexivity|]. split; [exact Hstatus|].
  apply (resolve_multiple_library_ids_upstream_failure Example.settings
           Example.entropy Example.aes_cbc_encrypt _ Example.json_loads
           Example.float_repr [0; 1]%nat ["fastapi"; "gone"] Example.world
           1%nat "gone" eq_refl Hstatus).
Defined.
